(** * cmake-common: Boost build-parameter expansion, toolchain files and
      CI adapters

    A shallow embedding of
      - project/boost/build.py      (BuildParameters),
      - project/boost/toolchain.py  (_full_exe_name, BoostBuildToolset,
                                     GCC, Clang, ClangCL),
      - project/cmake/toolchain.py  (Makefile, GCC._format),
      - project/ci/appveyor/cmake.py (build_appveyor),
      - project/ci/boost.py         (build_ci).

    Python values are modelled as follows: enum classes are inductive
    types, [str] is [string], generators are the lists of the values they
    yield (and, where the lifetime of a resource matters, a small step
    machine), exceptions are the [Raise] branch of [result], [os.environ]
    is a [gmap string string], the set of existing directories is a
    [gset string].  Calls to [logging] only write to the log and are left
    out. *)

From stdpp Require Import base option list gmap strings.
From Stdlib Require Import String Ascii.

Local Open Scope string_scope.
Local Open Scope list_scope.

(** ** Python exceptions and fallible computations *)

Inductive exn : Type :=
  | RuntimeError (msg : string)
  | ValueError (msg : string)
  | TypeError (msg : string)
  | NotImplementedError (msg : string)
  | OtherError (msg : string).

Inductive result (A : Type) : Type :=
  | Ok (a : A)
  | Raise (e : exn).
Arguments Ok {A} a.
Arguments Raise {A} e.

#[export] Instance result_ret : MRet result := fun A a => Ok a.

#[export] Instance result_bind : MBind result := fun A B k m =>
  match m with
  | Ok a => k a
  | Raise e => Raise e
  end.

Definition raises {A : Type} (m : result A) : Prop :=
  match m with
  | Ok _ => False
  | Raise _ => True
  end.

(** Python truthiness of the values that meet [or], [and] and [not] in
    the sources: a string is falsy when empty, [None] is falsy. *)

Definition str_truthy (s : string) : bool :=
  match s with
  | EmptyString => false
  | String _ _ => true
  end.

(** [x or d] for an optional list: [None] and the empty list are falsy. *)
Definition list_or {A : Type} (x : option (list A)) (d : list A) : list A :=
  match x with
  | Some (a :: l) => a :: l
  | _ => d
  end.

(** [x or d] for an optional enum member: members are always truthy. *)
Definition enum_or {A : Type} (x : option A) (d : A) : A :=
  match x with
  | Some a => a
  | None => d
  end.

(** [needle in haystack] on strings. *)
Fixpoint str_contains (needle haystack : string) : bool :=
  String.prefix needle haystack ||
  match haystack with
  | EmptyString => false
  | String _ rest => str_contains needle rest
  end.

(** ** Enumerations

    project/platform.py, project/configuration.py and project/linkage.py
    are not among the sources; the three value types follow the data model
    of the specification. *)

Module Platform.
(** Modelled from the spec: Platform is {x86, x64}, with an address
    model (32/64) and a string form. *)
Inductive t : Type := X86 | X64.

#[global] Instance eq_dec : EqDecision t.
Proof. solve_decision. Defined.

Definition all : list t := [X86; X64].

Definition str (p : t) : string :=
  match p with
  | X86 => "x86"
  | X64 => "x64"
  end.

Definition get_address_model (p : t) : string :=
  match p with
  | X86 => "32"
  | X64 => "64"
  end.
End Platform.

Module Configuration.
(** Modelled from the spec: Configuration is {debug, release}, with a
    mapping to the variant name of Boost.Build. *)
Inductive t : Type := DEBUG | RELEASE.

#[global] Instance eq_dec : EqDecision t.
Proof. solve_decision. Defined.

Definition all : list t := [DEBUG; RELEASE].

Definition str (c : t) : string :=
  match c with
  | DEBUG => "debug"
  | RELEASE => "release"
  end.

Definition to_boost_variant (c : t) : string :=
  match c with
  | DEBUG => "debug"
  | RELEASE => "release"
  end.
End Configuration.

Module Linkage.
(** Modelled from the spec: Linkage is {static, shared}. *)
Inductive t : Type := STATIC | SHARED.

#[global] Instance eq_dec : EqDecision t.
Proof. solve_decision. Defined.

Definition all : list t := [STATIC; SHARED].

Definition str (l : t) : string :=
  match l with
  | STATIC => "static"
  | SHARED => "shared"
  end.
End Linkage.

Module ToolchainType.
(** Modelled from the spec: the six toolchain hints. *)
Inductive t : Type := AUTO | MSVC | GCC | MINGW | CLANG | CLANG_CL.

#[global] Instance eq_dec : EqDecision t.
Proof. solve_decision. Defined.
End ToolchainType.

(** ** The host: what the code probes of the machine it runs on

    [project.os], [project.utils], [shutil.which] and [os.path] answer
    differently from machine to machine; the code is modelled over a
    record of their answers. *)

Record Host : Type := {
  on_linux : bool;
  on_cygwin : bool;
  on_windows : bool;
  (** [shutil.which(cmd, path=dir)]: [dir = None] searches PATH. *)
  which : string -> option string -> option string;
  (** [os.path.exists] *)
  path_exists : string -> bool;
  (** [os.path.dirname] and [os.path.basename] *)
  dirname : string -> string;
  basename : string -> string;
  (** [project.utils.normalize_path] *)
  normalize_path : string -> string;
  (** [os.path.join(a, b)] for a directory [a] that the caller or the
      environment supplies: drives, roots and the two separators of
      Windows make the result a matter of the path module at hand. *)
  os_path_join : string -> string -> string;
  (** [tempfile.mkdtemp(dir=d)], given the directories that exist: the
      path of the directory it makes, or the error it raises (a parent
      that is missing, for one). *)
  mkdtemp : string -> gset string -> result string
}.

(** [os.sep]: a backslash on Windows, a slash elsewhere. *)
Definition sep (h : Host) : string :=
  if on_windows h then "\" else "/".

(** [os.path.join] as [_stagedir] calls it: the first component is the
    relative name [stage], and those that follow are relative and carry
    neither a drive nor a root.  A component is appended behind a
    separator unless the path so far is empty or already ends with
    one. *)
Definition ends_with (suffix s : string) : bool :=
  String.prefix (String.rev suffix) (String.rev s).

Definition join2 (h : Host) (a b : string) : string :=
  if negb (str_truthy a) || ends_with (sep h) a then a +:+ b
  else a +:+ sep h +:+ b.

Definition path_join (h : Host) (a : string) (ps : list string) : string :=
  foldl (join2 h) a ps.

(** ** project/boost/build.py *)

Module BuildParameters.

Record t : Type := {
  boost_dir : string;
  stage_dir : string;
  build_dir : option string;
  platforms : list Platform.t;
  configurations : list Configuration.t;
  link : list Linkage.t;
  runtime_link : Linkage.t;
  b2_args : list string
}.

(** [__init__]: an omitted argument is [None]. *)
Definition __init__ (h : Host) (boost_dir : string)
    (build_dir : option string)
    (platforms : option (list Platform.t))
    (configurations : option (list Configuration.t))
    (link : option (list Linkage.t))
    (runtime_link : option Linkage.t)
    (b2_args : option (list string)) : t :=
  let boost_dir := normalize_path h boost_dir in
  let build_dir :=
    match build_dir with
    | Some d => Some (normalize_path h d)
    | None => None
    end in
  let platforms := list_or platforms Platform.all in
  let configurations := list_or configurations Configuration.all in
  let link := list_or link Linkage.all in
  let runtime_link := enum_or runtime_link Linkage.STATIC in
  let b2_args := list_or b2_args [] in
  {| boost_dir := boost_dir;
     stage_dir := "stage";
     build_dir := build_dir;
     platforms := platforms;
     configurations := configurations;
     link := link;
     runtime_link := runtime_link;
     b2_args := b2_args |}.

(** [_linkage_options]: the generator, as the list of the pairs it
    yields. *)
Definition _linkage_options (h : Host) (self : t)
    : list (Linkage.t * Linkage.t) :=
  map (fun link =>
         let runtime_link := runtime_link self in
         let runtime_link :=
           match runtime_link with
           | Linkage.STATIC =>
               match link with
               | Linkage.SHARED => Linkage.SHARED
               | _ => if on_linux h then Linkage.SHARED else runtime_link
               end
           | _ => runtime_link
           end in
         (link, runtime_link))
      (link self).

Definition _build_dir (build_dir : string) : string :=
  "--build-dir=" +:+ build_dir.

Definition _stagedir (h : Host) (self : t)
    (platform : Platform.t) (configuration : Configuration.t) : string :=
  let platform := Platform.str platform in
  let configuration := Configuration.str configuration in
  "--stagedir=" +:+ path_join h (stage_dir self) [platform; configuration].

Definition _link (link : Linkage.t) : string :=
  "link=" +:+ Linkage.str link.

Definition _runtime_link (runtime_link : Linkage.t) : string :=
  "runtime-link=" +:+ Linkage.str runtime_link.

Definition _address_model (platform : Platform.t) : string :=
  "address-model=" +:+ Platform.get_address_model platform.

Definition _variant (configuration : Configuration.t) : string :=
  "variant=" +:+ Configuration.to_boost_variant configuration.

(** [_build_params]: [params.append x] is [params ++ [x]]. *)
Definition _build_params (h : Host) (self : t) (build_dir : string)
    (platform : Platform.t) (configuration : Configuration.t)
    (link runtime_link : Linkage.t) : list string :=
  let params : list string := [] in
  let params := params ++ [_build_dir build_dir] in
  let params := params ++ [_stagedir h self platform configuration] in
  let params := params ++ [_link link] in
  let params := params ++ [_runtime_link runtime_link] in
  let params := params ++ [_address_model platform] in
  let params := params ++ [_variant configuration] in
  let params := params ++ b2_args self in
  params.

(** The three nested loops of [enum_b2_args], for the build directory
    that [_create_build_dir] hands out: the argument lists in the order
    in which they are yielded. *)
Definition enum_b2_args_in (h : Host) (self : t) (build_dir : string)
    : list (list string) :=
  platform ← platforms self;
  configuration ← configurations self;
  '(link, runtime_link) ← _linkage_options h self;
  [_build_params h self build_dir platform configuration link runtime_link].

(** *** The build directory as a scoped resource

    [_create_build_dir] is a context manager and [enum_b2_args] a
    generator whose body runs inside it.  The directories that exist
    are a [gset string]; [made] records the directories the generator
    has created so far. *)

(** Entering [_create_build_dir]: the directory handed to the body, the
    temporary directory to clean up (if one was made), and the
    directories that exist afterwards; or the error of
    [tempfile.TemporaryDirectory], which has then made nothing. *)
Definition _create_build_dir_enter (h : Host) (self : t) (fs : gset string)
    : result (string * option string * gset string) :=
  match build_dir self with
  | Some d => Ok (d, None, fs)
  | None =>
      tmp ← mkdtemp h (dirname h (boost_dir self)) fs;
      Ok (tmp, Some tmp, fs ∪ {[tmp]})
  end.

(** Leaving it, on a normal exit as on an exception:
    [TemporaryDirectory.__exit__] removes the directory. *)
Definition _create_build_dir_exit (tmp : option string) (fs : gset string)
    : gset string :=
  match tmp with
  | Some d => fs ∖ {[d]}
  | None => fs
  end.

Inductive gen_state : Type :=
  | Created
  | Suspended (tmp : option string) (pending : list (list string))
  | Finished.

(** What the caller does with the generator: [next(g)], or an exception
    delivered at the [yield] it is suspended at ([g.throw(e)], and
    [g.close()] when the generator is abandoned). *)
Inductive gen_event : Type := Next | Throw.

Inductive gen_outcome : Type :=
  | Yielded (args : list string)
  | StopIteration
  | Raised.

Record gen_config : Type := {
  fs : gset string;
  made : list string;
  st : gen_state
}.

Definition made_of (tmp : option string) : list string :=
  match tmp with
  | Some d => [d]
  | None => []
  end.

Definition gen_step (h : Host) (self : t) (c : gen_config) (e : gen_event)
    : gen_config * gen_outcome :=
  match st c, e with
  | Created, Next =>
      match _create_build_dir_enter h self (fs c) with
      | Raise _ =>
          ({| fs := fs c; made := made c; st := Finished |}, Raised)
      | Ok (dir, tmp, fs1) =>
          match enum_b2_args_in h self dir with
          | [] =>
              ({| fs := _create_build_dir_exit tmp fs1;
                  made := made c ++ made_of tmp;
                  st := Finished |}, StopIteration)
          | args :: pending =>
              ({| fs := fs1;
                  made := made c ++ made_of tmp;
                  st := Suspended tmp pending |}, Yielded args)
          end
      end
  | Created, Throw =>
      ({| fs := fs c; made := made c; st := Finished |}, Raised)
  | Suspended tmp (args :: pending), Next =>
      ({| fs := fs c; made := made c; st := Suspended tmp pending |},
       Yielded args)
  | Suspended tmp [], Next =>
      ({| fs := _create_build_dir_exit tmp (fs c);
          made := made c;
          st := Finished |}, StopIteration)
  | Suspended tmp _, Throw =>
      ({| fs := _create_build_dir_exit tmp (fs c);
          made := made c;
          st := Finished |}, Raised)
  | Finished, Next => (c, StopIteration)
  | Finished, Throw => (c, Raised)
  end.

Fixpoint gen_run (h : Host) (self : t) (c : gen_config)
    (es : list gen_event) : gen_config * list gen_outcome :=
  match es with
  | [] => (c, [])
  | e :: es =>
      let '(c1, o) := gen_step h self c e in
      let '(c2, os) := gen_run h self c1 es in
      (c2, o :: os)
  end.

Definition gen_init (fs : gset string) : gen_config :=
  {| fs := fs; made := []; st := Created |}.

Definition yielded (os : list gen_outcome) : list (list string) :=
  omap (fun o => match o with Yielded a => Some a | _ => None end) os.

End BuildParameters.

(** ** project/boost/toolchain.py *)

(** The characters that a literal cannot hold: a line feed and a double
    quote. *)
Definition nl : string := String "010"%char EmptyString.
Definition dq : string := String "034"%char EmptyString.

Module BoostToolchain.

(** [dir_path = os.path.dirname(exe) or None] *)
Definition dir_path_of (h : Host) (exe : string) : option string :=
  if str_truthy (dirname h exe) then Some (dirname h exe) else None.

(** [not path] for the answer of [shutil.which]. *)
Definition not_found (path : option string) : bool :=
  match path with
  | None => true
  | Some p => negb (str_truthy p)
  end.

Definition _full_exe_name (h : Host) (exe : string) : result string :=
  if on_linux h then Ok exe
  else
    let dir_path := dir_path_of h exe in
    let path := which h exe dir_path in
    match path with
    | None | Some EmptyString =>
        Raise (RuntimeError
                 ("executable '" +:+ exe +:+ "' could not be found"))
    | Some path =>
        let path :=
          if on_cygwin h then
            if path_exists h path && path_exists h (path +:+ ".exe")
            then path +:+ ".exe"
            else path
          else path in
        match dir_path with
        | Some _ => Ok path
        | None => Ok (basename h path)
        end
    end.

Module BoostBuildToolset.
Definition CUSTOM : string := "custom".

Record t : Type := {
  compiler : string;
  version : string;
  path : string;
  options : list (string * string)
}.

Definition __init__ (h : Host) (compiler : string) (path : option string)
    (options : option (list (string * string))) : result t :=
  if negb (str_truthy compiler) then
    Raise (RuntimeError
             "compiler type is required (like gcc, clang, etc.)")
  else
    let path := match path with
                | Some (String a p) => String a p
                | _ => ""
                end in
    path ← (if str_truthy path then _full_exe_name h path else Ok path);
    let options := list_or options [] in
    Ok {| compiler := compiler;
          version := CUSTOM;
          path := path;
          options := options |}.

Definition toolset (self : t) : string :=
  if str_truthy (version self)
  then compiler self +:+ "-" +:+ version self
  else compiler self.

Definition b2_toolset (self : t) : string := "toolset=" +:+ toolset self.

Definition b2_args (self : t) : list string := [b2_toolset self].

Definition _format_using_options (self : t) : string :=
  String.concat ""
    (map (fun '(name, val) => nl +:+ "    <" +:+ name +:+ ">" +:+ val)
         (options self)).

Definition format_using (self : t) : string :=
  let version :=
    if str_truthy (version self) then version self +:+ " "
    else version self in
  let path :=
    if str_truthy (path self) then path self +:+ " " else path self in
  "using " +:+ compiler self +:+ " : " +:+ version +:+ ": " +:+ path
    +:+ ":" +:+ _format_using_options self +:+ nl +:+ ";".
End BoostBuildToolset.

Module GCC.
Definition COMPILER : string := "gcc".

Definition get_options : list (string * string) :=
  [("cxxflags", "-Wno-deprecated-declarations");
   ("cxxflags", "-Wno-parentheses")].

Definition get_toolset (h : Host) (platform : Platform.t)
    : result BoostBuildToolset.t :=
  BoostBuildToolset.__init__ h COMPILER (Some "g++") (Some get_options).

Definition format_config (toolset : BoostBuildToolset.t) : string :=
  BoostBuildToolset.format_using toolset.
End GCC.

Module MinGW.
(** project/mingw.py is not among the sources: [gxx] is the answer of
    [project.mingw.MinGW(platform).gxx()]. *)
Definition get_toolset (h : Host) (gxx : Platform.t -> string)
    (platform : Platform.t) : result BoostBuildToolset.t :=
  let compiler := gxx platform in
  BoostBuildToolset.__init__ h GCC.COMPILER (Some compiler)
    (Some GCC.get_options).

Definition format_config (toolset : BoostBuildToolset.t) : string :=
  GCC.format_config toolset.
End MinGW.

Module Clang.
Definition COMPILER : string := "clang".

Definition get_toolset (h : Host) (platform : Platform.t)
    : result BoostBuildToolset.t :=
  let options :=
    [("cxxflags", "-DBOOST_USE_WINDOWS_H");
     ("cxxflags", "-Wno-unused-local-typedef");
     ("cxxflags", "-Wno-c++11-narrowing")] ++ GCC.get_options in
  let options :=
    if on_windows h then
      let options :=
        if which h "llvm-ar" None is Some _
        then options ++ [("archiver", "llvm-ar")] else options in
      if which h "llvm-ranlib" None is Some _
      then options ++ [("ranlib", "llvm-ranlib")] else options
    else options in
  BoostBuildToolset.__init__ h COMPILER (Some "clang++") (Some options).

(** The fixed text of the configuration, up to the toolset
    definition. *)
Definition requirements : string :=
  "project : requirements" +:+ nl +:+
  "    <target-os>windows:<define>_MT" +:+ nl +:+
  "    <target-os>windows,<variant>debug:<define>_DEBUG" +:+ nl +:+
  "    <target-os>windows,<runtime-link>static,<variant>debug:<cxxflags>"
    +:+ dq +:+
    "-Xclang -flto-visibility-public-std -Xclang --dependent-lib=libcmtd"
    +:+ dq +:+ nl +:+
  "    <target-os>windows,<runtime-link>static,<variant>release:<cxxflags>"
    +:+ dq +:+
    "-Xclang -flto-visibility-public-std -Xclang --dependent-lib=libcmt"
    +:+ dq +:+ nl +:+
  "    <target-os>windows,<runtime-link>shared,<variant>debug:<cxxflags>"
    +:+ dq +:+ "-D_DLL -Xclang --dependent-lib=msvcrtd" +:+ dq +:+ nl +:+
  "    <target-os>windows,<runtime-link>shared,<variant>release:<cxxflags>"
    +:+ dq +:+ "-D_DLL -Xclang --dependent-lib=msvcrt" +:+ dq +:+ nl +:+
  ";" +:+ nl.

Definition format_config (toolset : BoostBuildToolset.t) : string :=
  requirements +:+ BoostBuildToolset.format_using toolset +:+ nl.
End Clang.

(** The [Toolchain] classes.  [Platform.b2_args], [project.mingw] and
    [project.utils.temp_file] are not among the sources and are taken
    as parameters: the flags a platform contributes, the name of the
    MinGW compiler, and the path of the temporary file that receives
    the configuration. *)
Module Toolchain.
Inductive config_class : Type := GCC_cls | MinGW_cls | Clang_cls.

Inductive t : Type :=
  | Auto (platform : Platform.t)
  | MSVC (platform : Platform.t)
  | ConfigFile (cls : config_class) (platform : Platform.t)
      (config_path : string) (toolset : BoostBuildToolset.t)
  | ClangCL (platform : Platform.t).

Section WithParameters.
Variable h : Host.
Variable platform_b2_args : Platform.t -> Configuration.t -> list string.
Variable gxx : Platform.t -> string.
Variable temp_file : string -> string.

Definition b2_args (self : t) (configuration : Configuration.t)
    : list string :=
  match self with
  | Auto platform => platform_b2_args platform configuration
  | MSVC platform =>
      platform_b2_args platform configuration ++ ["toolset=msvc"]
  | ConfigFile _ platform config_path toolset =>
      let args := platform_b2_args platform configuration in
      let args := args ++ ["--user-config=" +:+ config_path] in
      let args := args ++ BoostBuildToolset.b2_args toolset in
      args
  | ClangCL platform =>
      platform_b2_args platform configuration
        ++ ["toolset=clang-win"; "define=BOOST_USE_WINDOWS_H"]
  end.

Definition get_toolset (cls : config_class) (platform : Platform.t)
    : result BoostBuildToolset.t :=
  match cls with
  | GCC_cls => GCC.get_toolset h platform
  | MinGW_cls => MinGW.get_toolset h gxx platform
  | Clang_cls => Clang.get_toolset h platform
  end.

Definition format_config (cls : config_class)
    (toolset : BoostBuildToolset.t) : string :=
  match cls with
  | GCC_cls => GCC.format_config toolset
  | MinGW_cls => MinGW.format_config toolset
  | Clang_cls => Clang.format_config toolset
  end.

(** [ConfigFile.setup]: the toolchain and the contents written to
    the user configuration file. *)
Definition setup (cls : config_class) (platform : Platform.t)
    : result (t * option string) :=
  toolset ← get_toolset cls platform;
  let config := format_config cls toolset in
  let path := temp_file config in
  Ok (ConfigFile cls platform path toolset, Some config).

(** [Toolchain.detect]: the toolchain it yields, and the contents
    of the configuration file it generates, if any. *)
Definition detect (hint : ToolchainType.t) (platform : Platform.t)
    : result (t * option string) :=
  match hint with
  | ToolchainType.AUTO => Ok (Auto platform, None)
  | ToolchainType.MSVC => Ok (MSVC platform, None)
  | ToolchainType.GCC => setup GCC_cls platform
  | ToolchainType.MINGW => setup MinGW_cls platform
  | ToolchainType.CLANG => setup Clang_cls platform
  | ToolchainType.CLANG_CL => Ok (ClangCL platform, None)
  end.

(** Everything a detected toolchain hands to b2 for a
    configuration: its command-line flags and the contents of its
    configuration file. *)
Definition emitted (r : t * option string)
    (configuration : Configuration.t) : list string :=
  b2_args (fst r) configuration ++ option_list (snd r).

Definition emits (needle : string) (r : t * option string)
    (configuration : Configuration.t) : bool :=
  existsb (str_contains needle) (emitted r configuration).
End WithParameters.
End Toolchain.

End BoostToolchain.

(** ** project/cmake/toolchain.py *)

Module CMakeToolchain.

Module Makefile.
Definition _get_config_path (h : Host) (build_dir : string) : string :=
  os_path_join h build_dir "custom_toolchain.cmake".

Definition _format_platform_compiler_flags (platform : option Platform.t)
    : string :=
  match platform with
  | None => ""
  | Some platform =>
      nl +:+
      "set(CMAKE_C_FLAGS   -m" +:+ Platform.get_address_model platform
        +:+ ")" +:+ nl +:+
      "set(CMAKE_CXX_FLAGS -m" +:+ Platform.get_address_model platform
        +:+ ")" +:+ nl
  end.
End Makefile.

Module GCC.
Definition _format (platform : option Platform.t) : string :=
  nl +:+
  "set(CMAKE_C_COMPILER   gcc)" +:+ nl +:+
  "set(CMAKE_CXX_COMPILER g++)" +:+ nl +:+
  Makefile._format_platform_compiler_flags platform.
End GCC.

End CMakeToolchain.

(** ** project/ci/appveyor/cmake.py *)

Module AppVeyor.

Module Image.
Inductive t : Type := VS_2013 | VS_2015 | VS_2017 | VS_2019.

Definition value (i : t) : string :=
  match i with
  | VS_2013 => "Visual Studio 2013"
  | VS_2015 => "Visual Studio 2015"
  | VS_2017 => "Visual Studio 2017"
  | VS_2019 => "Visual Studio 2019"
  end.

Definition all : list t := [VS_2013; VS_2015; VS_2017; VS_2019].

(** [Image(s)]: the member whose value is [s]. *)
Definition of_value (s : string) : option t :=
  find (fun i => String.eqb (value i) s) all.
End Image.

Definition _parse_image (s : string) : result Image.t :=
  match Image.of_value s with
  | Some i => Ok i
  | None => Raise (ValueError ("unsupported AppVeyor image: " +:+ s))
  end.

Module Generator.
Inductive t : Type := VS_2013 | VS_2015 | VS_2017 | VS_2019.

Definition str (g : t) : string :=
  match g with
  | VS_2013 => "Visual Studio 12 2013"
  | VS_2015 => "Visual Studio 14 2015"
  | VS_2017 => "Visual Studio 15 2017"
  | VS_2019 => "Visual Studio 16 2019"
  end.

Definition from_image (image : Image.t) : t :=
  match image with
  | Image.VS_2013 => VS_2013
  | Image.VS_2015 => VS_2015
  | Image.VS_2017 => VS_2017
  | Image.VS_2019 => VS_2019
  end.
End Generator.

Module Platform.
Inductive t : Type := x86 | X64.

Definition str (p : t) : string :=
  match p with
  | x86 => "Win32"
  | X64 => "x64"
  end.

Definition all : list t := [x86; X64].

Definition of_value (s : string) : option t :=
  find (fun p => String.eqb (str p) s) all.
End Platform.

Definition _parse_platform (s : string) : result Platform.t :=
  match Platform.of_value s with
  | Some p => Ok p
  | None => Raise (ValueError ("unsupported AppVeyor platform: " +:+ s))
  end.

Section WithEnviron.
(** [os.environ] *)
Variable environ : gmap string string.

Definition _env (name : string) : result string :=
  match environ !! name with
  | None => Raise (RuntimeError ("undefined environment variable: " +:+ name))
  | Some v => Ok v
  end.

Definition _check_appveyor : result unit :=
  match environ !! "APPVEYOR" with
  | None => Raise (RuntimeError "not running on AppVeyor")
  | Some _ => Ok tt
  end.

Definition _get_src_dir : result string := _env "APPVEYOR_BUILD_FOLDER".

Definition _get_build_dir : string := "C:\Projects\build".

Definition _get_generator : result string :=
  s ← _env "APPVEYOR_BUILD_WORKER_IMAGE";
  image ← _parse_image s;
  Ok (Generator.str (Generator.from_image image)).

Definition _get_platform : result string :=
  s ← _env "PLATFORM";
  platform ← _parse_platform s;
  Ok (Platform.str platform).

Definition _get_configuration : result string := _env "CONFIGURATION".

(** The namespace that [_parse_args] returns. *)
Record Args : Type := {
  install_dir : option string;
  cmake_args : list string
}.

(** The part of [build_appveyor] that precedes the call of [build]:
    the argument vector it assembles. *)
Definition appveyor_argv (args : Args) : result (list string) :=
  _ ← _check_appveyor;
  configuration ← _get_configuration;
  let appveyor_argv :=
    ["--build"; _get_build_dir; "--configuration"; configuration] in
  let appveyor_argv :=
    match install_dir args with
    | Some d => appveyor_argv ++ ["--install"; d]
    | None => appveyor_argv
    end in
  src_dir ← _get_src_dir;
  generator ← _get_generator;
  platform ← _get_platform;
  let appveyor_argv :=
    appveyor_argv ++ ["--"; src_dir; "-G"; generator; "-A"; platform] in
  Ok (appveyor_argv ++ cmake_args args).

(** [build] is [project.cmake.build.build]. *)
Definition build_appveyor (build : list string -> result unit)
    (args : Args) : result unit :=
  argv ← appveyor_argv args;
  build argv.
End WithEnviron.

Definition required : list string :=
  ["APPVEYOR"; "APPVEYOR_BUILD_FOLDER"; "APPVEYOR_BUILD_WORKER_IMAGE";
   "PLATFORM"; "CONFIGURATION"].

End AppVeyor.

(** ** Calling a Python function

    A [def] with neither [*args] nor [**kwargs] is called with some
    positional arguments and some keyword arguments; binding them to the
    parameters fails with a [TypeError] before the body runs.  The checks
    are made in the order of the interpreter: keywords first, then the
    number of positional arguments, then missing arguments. *)

Module PyCall.

Record param : Type := {
  pname : string;
  has_default : bool
}.

Definition names (ps : list param) : list string := map pname ps.

Fixpoint check_keywords (fname : string) (ps : list param) (npos : nat)
    (kws : list string) : result unit :=
  match kws with
  | [] => Ok tt
  | kw :: kws =>
      if negb (existsb (String.eqb kw) (names ps)) then
        Raise (TypeError (fname +:+
                 "() got an unexpected keyword argument '" +:+ kw +:+ "'"))
      else if existsb (String.eqb kw) (take npos (names ps)) then
        Raise (TypeError (fname +:+
                 "() got multiple values for argument '" +:+ kw +:+ "'"))
      else check_keywords fname ps npos kws
  end.

Definition missing (ps : list param) (npos : nat) (kws : list string)
    : list string :=
  names (filter (fun p => negb (has_default p)
                          && negb (existsb (String.eqb (pname p)) kws))
                (drop npos ps)).

Definition bind_call (fname : string) (ps : list param) (npos : nat)
    (kws : list string) : result unit :=
  _ ← check_keywords fname ps npos kws;
  if Nat.ltb (List.length ps) npos then
    Raise (TypeError (fname +:+ "() takes too many positional arguments"))
  else if negb (bool_decide (missing ps npos kws = [])) then
    Raise (TypeError (fname +:+ "() missing required arguments"))
  else Ok tt.

End PyCall.

(** ** project/ci/boost.py *)

Module CIBoost.

(** The parameters of [BuildParameters.__init__] after [self], as
    declared in project/boost/build.py. *)
Definition BuildParameters_params : list PyCall.param :=
  [ {| PyCall.pname := "boost_dir"; PyCall.has_default := false |};
    {| PyCall.pname := "build_dir"; PyCall.has_default := true |};
    {| PyCall.pname := "platforms"; PyCall.has_default := true |};
    {| PyCall.pname := "configurations"; PyCall.has_default := true |};
    {| PyCall.pname := "link"; PyCall.has_default := true |};
    {| PyCall.pname := "runtime_link"; PyCall.has_default := true |};
    {| PyCall.pname := "b2_args"; PyCall.has_default := true |} ].

(** The namespace that [_parse_args] returns. *)
Record Args : Type := {
  link : option (list Linkage.t);
  runtime_link : option Linkage.t;
  toolset : option ToolchainType.t;
  b2_args : list string
}.

(** The [dirs] object (project/ci/dirs.py is not among the sources):
    what each of its getters answers. *)
Record Dirs : Type := {
  get_boost_version : result string;
  get_build_dir : result string;
  get_boost_dir : result string;
  get_platform : result Platform.t;
  get_configuration : result Configuration.t
}.

Section WithCollaborators.
Variable h : Host.
(** [download(DownloadParameters(version, unpack_dir, dest_path))] *)
Variable download : string -> string -> string -> result unit.
(** [project.boost.build.build] *)
Variable build : BuildParameters.t -> result unit.

(** The call
    [BuildParameters(boost_dir, platforms=.., configurations=..,
                     link=.., runtime_link=.., toolset=.., b2_args=..)]:
    one positional argument and six keywords. *)
Definition construct_params (boost_dir : string)
    (platform : Platform.t) (configuration : Configuration.t)
    (args : Args) : result BuildParameters.t :=
  _ ← PyCall.bind_call "__init__" BuildParameters_params 1
        ["platforms"; "configurations"; "link"; "runtime_link";
         "toolset"; "b2_args"];
  Ok (BuildParameters.__init__ h boost_dir None
        (Some [platform]) (Some [configuration])
        (link args) (runtime_link args) (Some (b2_args args))).

Definition build_ci (dirs : Dirs) (args : Args) : result unit :=
  version ← get_boost_version dirs;
  build_dir ← get_build_dir dirs;
  boost_dir ← get_boost_dir dirs;
  _ ← download version build_dir boost_dir;
  platform ← get_platform dirs;
  configuration ← get_configuration dirs;
  params ← construct_params boost_dir platform configuration args;
  build params.

(** The steps of [build_ci] that come before the construction of the
    build parameters all succeed. *)
Definition reaches_construction (dirs : Dirs) : Prop :=
  exists version build_dir boost_dir platform configuration,
    get_boost_version dirs = Ok version /\
    get_build_dir dirs = Ok build_dir /\
    get_boost_dir dirs = Ok boost_dir /\
    download version build_dir boost_dir = Ok tt /\
    get_platform dirs = Ok platform /\
    get_configuration dirs = Ok configuration.
End WithCollaborators.

End CIBoost.

(** ** Two example hosts, for evaluating the code on concrete inputs *)

Definition linux_host : Host :=
  {| on_linux := true; on_cygwin := false; on_windows := false;
     which := fun _ _ => None;
     path_exists := fun _ => false;
     dirname := fun _ => "";
     basename := fun s => s;
     normalize_path := fun s => s;
     os_path_join := fun a b =>
       if negb (str_truthy a) || ends_with "/" a then a +:+ b
       else a +:+ "/" +:+ b;
     mkdtemp := fun d _ => Ok (d +:+ "/tmp0") |}.

(** A Windows machine whose tools are all in one directory of its PATH. *)
Definition tools_dir : string := "C:\tools\".

Definition windows_host : Host :=
  {| on_linux := false; on_cygwin := false; on_windows := true;
     which := fun cmd _ => Some (tools_dir +:+ cmd +:+ ".EXE");
     path_exists := fun _ => false;
     dirname := fun _ => "";
     basename := fun s =>
       if String.prefix tools_dir s
       then String.substring (String.length tools_dir)
              (String.length s - String.length tools_dir) s
       else s;
     normalize_path := fun s => s;
     os_path_join := fun a b =>
       if negb (str_truthy a) || ends_with "\" a || ends_with "/" a
       then a +:+ b
       else a +:+ "\" +:+ b;
     mkdtemp := fun d _ => Ok (d +:+ "\tmp0") |}.

(** The flag of an argument list that sets the staging directory. *)
Definition stagedir_flag (args : list string) : option string :=
  find (String.prefix "--stagedir=") args.

(** The staging directory is unique over the whole expansion: no two
    distinct argument lists carry the same [--stagedir] flag. *)
Definition stagedir_unique (h : Host) (self : BuildParameters.t)
    (build_dir : string) : Prop :=
  forall a b,
    a ∈ BuildParameters.enum_b2_args_in h self build_dir ->
    b ∈ BuildParameters.enum_b2_args_in h self build_dir ->
    a <> b -> stagedir_flag a <> stagedir_flag b.

Import BuildParameters.

(** The parameters built from a Boost directory alone. *)
Definition default_params : BuildParameters.t :=
  __init__ linux_host "boost" None None None None None None.

(** The path that a lookup found, as b2 wants it: on Cygwin the lookup
    hides the [.exe] of an executable that exists under both names. *)
Definition with_cygwin_extension (h : Host) (path : string) : string :=
  if on_cygwin h then
    if path_exists h path && path_exists h (path +:+ ".exe")
    then path +:+ ".exe" else path
  else path.

(** The line of the Clang configuration that selects the C runtime on
    Windows for a configuration and a runtime linkage. *)
Definition dependent_lib_directive (c : Configuration.t) (rl : Linkage.t)
    : string :=
  "<target-os>windows,<runtime-link>" +:+ Linkage.str rl +:+ ",<variant>"
    +:+ Configuration.to_boost_variant c +:+ ":<cxxflags>" +:+ dq +:+
  match rl, c with
  | Linkage.STATIC, Configuration.DEBUG =>
      "-Xclang -flto-visibility-public-std -Xclang --dependent-lib=libcmtd"
  | Linkage.STATIC, Configuration.RELEASE =>
      "-Xclang -flto-visibility-public-std -Xclang --dependent-lib=libcmt"
  | Linkage.SHARED, Configuration.DEBUG =>
      "-D_DLL -Xclang --dependent-lib=msvcrtd"
  | Linkage.SHARED, Configuration.RELEASE =>
      "-D_DLL -Xclang --dependent-lib=msvcrt"
  end +:+ dq.

(** Modelled from the spec: [Platform.b2_args] (project/platform.py is not
    among the sources).  The spec derives one b2 flag from a platform
    alone, the architecture flag. *)
Definition spec_platform_b2_args (platform : Platform.t)
    (configuration : Configuration.t) : list string :=
  [_address_model platform].

(** A configuration file names g++ and carries the two warning
    suppressions. *)
Definition names_gxx_and_suppresses_warnings (contents : string) : bool :=
  str_contains "g++" contents
  && str_contains "-Wno-deprecated-declarations" contents
  && str_contains "-Wno-parentheses" contents.

(** The text that follows the compiler in the [using] rule of GCC. *)
Definition gcc_using_options : string :=
  ":" +:+ nl +:+ "    <cxxflags>-Wno-deprecated-declarations" +:+ nl +:+
  "    <cxxflags>-Wno-parentheses" +:+ nl +:+ ";".

(** An argument that was left out, or given as an empty list. *)
Definition omitted {A : Type} (x : option (list A)) : Prop :=
  x = None \/ x = Some [].

(** The condition under which the runtime linkage is forced to shared. *)
Definition forces_shared (h : Host) (self : BuildParameters.t)
    (link : Linkage.t) : Prop :=
  runtime_link self = Linkage.STATIC /\
  (link = Linkage.SHARED \/ on_linux h = true).






(** ** project/boost/toolchain.py: the toolchains of the bootstrap scripts *)

Module BootstrapToolchain.

Inductive t : Type :=
  | BootstrapAuto
  | BootstrapMSVC
  | BootstrapGCC
  | BootstrapMinGW
  | BootstrapClang
  | BootstrapClangCL.

(** [BootstrapToolchain.detect]: one class for each of the six hints, so
    that the final [raise] is not reached. *)
Definition detect (hint : ToolchainType.t) : t :=
  match hint with
  | ToolchainType.AUTO => BootstrapAuto
  | ToolchainType.MSVC => BootstrapMSVC
  | ToolchainType.GCC => BootstrapGCC
  | ToolchainType.MINGW => BootstrapMinGW
  | ToolchainType.CLANG => BootstrapClang
  | ToolchainType.CLANG_CL => BootstrapClangCL
  end.

Definition _gcc_or_auto (h : Host) : list string :=
  if which h "gcc" None is Some _ then ["gcc"] else [].

(** [BootstrapMSVC] inherits both methods from [BootstrapAuto], and
    [BootstrapClangCL] from [BootstrapClang]. *)
Definition get_bootstrap_bat_args (h : Host) (self : t) : list string :=
  match self with
  | BootstrapAuto | BootstrapMSVC => []
  | BootstrapGCC => ["gcc"]
  | BootstrapMinGW => _gcc_or_auto h
  | BootstrapClang | BootstrapClangCL => _gcc_or_auto h
  end.

Definition get_bootstrap_sh_args (self : t) : list string :=
  match self with
  | BootstrapAuto | BootstrapMSVC => []
  | BootstrapGCC => ["--with-toolset=gcc"]
  | BootstrapMinGW => []
  | BootstrapClang | BootstrapClangCL => ["--with-toolset=clang"]
  end.

End BootstrapToolchain.

(** ** project/cmake/toolchain.py: the toolchains of CMake *)

Module CMakeDetect.

(** project/mingw.py is not among the sources: the names of the MinGW
    tools for a platform are the answers of its five functions. *)
Record MinGWTools : Type := {
  get_gcc : Platform.t -> string;
  get_gxx : Platform.t -> string;
  get_ar : Platform.t -> string;
  get_ranlib : Platform.t -> string;
  get_windres : Platform.t -> string
}.

Module MinGW.
Definition _format (tools : MinGWTools) (platform : option Platform.t)
    : string :=
  let platform :=
    match platform with
    | None => Platform.X64
    | Some platform => platform
    end in
  nl +:+
  "set(CMAKE_C_COMPILER   " +:+ get_gcc tools platform +:+ ")" +:+ nl +:+
  "set(CMAKE_CXX_COMPILER " +:+ get_gxx tools platform +:+ ")" +:+ nl +:+
  "set(CMAKE_AR           " +:+ get_ar tools platform +:+ ")" +:+ nl +:+
  "set(CMAKE_RANLIB       " +:+ get_ranlib tools platform +:+ ")" +:+ nl +:+
  "set(CMAKE_RC_COMPILER  " +:+ get_windres tools platform +:+ ")" +:+ nl +:+
  "set(CMAKE_SYSTEM_NAME  Windows)" +:+ nl.
End MinGW.

Module Clang.
Definition _format (platform : option Platform.t) : string :=
  nl +:+
  "if(CMAKE_VERSION VERSION_LESS " +:+ dq +:+ "3.15" +:+ dq +:+ " AND WIN32)"
    +:+ nl +:+
  "    set(CMAKE_C_COMPILER   clang-cl)" +:+ nl +:+
  "    set(CMAKE_CXX_COMPILER clang-cl)" +:+ nl +:+
  "else()" +:+ nl +:+
  "    set(CMAKE_C_COMPILER   clang)" +:+ nl +:+
  "    set(CMAKE_CXX_COMPILER clang++)" +:+ nl +:+
  "endif()" +:+ nl +:+
  CMakeToolchain.Makefile._format_platform_compiler_flags platform.
End Clang.

Module ClangCL.
Definition _format (platform : option Platform.t) : string :=
  nl +:+
  "set(CMAKE_C_COMPILER   clang-cl)" +:+ nl +:+
  "set(CMAKE_CXX_COMPILER clang-cl)" +:+ nl +:+
  "set(CMAKE_SYSTEM_NAME  Windows)" +:+ nl +:+
  CMakeToolchain.Makefile._format_platform_compiler_flags platform.
End ClangCL.

(** The four subclasses of [Makefile]. *)
Inductive makefile_class : Type := GCC_cls | MinGW_cls | Clang_cls | ClangCL_cls.

Inductive t : Type :=
  | Auto
  | MSVC (platform : option Platform.t)
  | Makefile (cls : makefile_class) (path : string).

(** [if shutil.which(cmd):] *)
Definition found (h : Host) (cmd : string) : bool :=
  negb (BoostToolchain.not_found (which h cmd None)).

Module Makefile.
Definition _get_makefile_generator (h : Host) : string :=
  if on_windows h then
    if found h "mingw32-make" then "MinGW Makefiles"
    else "Unix Makefiles"
  else "Unix Makefiles".
End Makefile.

(** [Clang._get_makefile_generator], which [ClangCL] inherits. *)
Definition Clang_get_makefile_generator (h : Host) : string :=
  if on_windows h then
    if found h "nmake" then "NMake Makefiles"
    else Makefile._get_makefile_generator h
  else Makefile._get_makefile_generator h.

(** [self._get_makefile_generator()], by the class of [self]. *)
Definition _get_makefile_generator (h : Host) (cls : makefile_class)
    : string :=
  match cls with
  | GCC_cls | MinGW_cls => Makefile._get_makefile_generator h
  | Clang_cls | ClangCL_cls => Clang_get_makefile_generator h
  end.

Section WithParameters.
Variable h : Host.
(** [Platform.get_cmake_arch] and [str] of a toolchain hint
    (project/platform.py and project/toolchain.py are not among the
    sources). *)
Variable get_cmake_arch : Platform.t -> string.
Variable hint_str : ToolchainType.t -> string.
Variable tools : MinGWTools.
(** [open(path, mode='w')] and [file.write(contents)] on the file it
    gives: the outcome of writing [contents] to [path]. *)
Variable write_text : string -> string -> result unit.

Definition get_cmake_args (self : t) : list string :=
  match self with
  | Auto => []
  | MSVC None => []
  | MSVC (Some platform) => ["-A"; get_cmake_arch platform]
  | Makefile cls path =>
      ["-D"; "CMAKE_TOOLCHAIN_FILE=" +:+ path;
       "-G"; _get_makefile_generator h cls]
  end.

Definition get_build_args (self : t) : list string :=
  match self with
  | Auto => []
  | MSVC _ => ["/m"]
  | Makefile _ _ => []
  end.

Definition _format (cls : makefile_class) (platform : option Platform.t)
    : string :=
  match cls with
  | GCC_cls => CMakeToolchain.GCC._format platform
  | MinGW_cls => MinGW._format tools platform
  | Clang_cls => Clang._format platform
  | ClangCL_cls => ClangCL._format platform
  end.

(** [write_config]: the toolchain it returns, and the file it has
    written (its path and its contents); an error of the writing comes
    through. *)
Definition write_config (cls : makefile_class) (build_dir contents : string)
    : result (t * option (string * string)) :=
  let path := CMakeToolchain.Makefile._get_config_path h build_dir in
  _ ← write_text path contents;
  Ok (Makefile cls path, Some (path, contents)).

(** [setup] of the four subclasses. *)
Definition setup (cls : makefile_class) (platform : option Platform.t)
    (build_dir : string) : result (t * option (string * string)) :=
  write_config cls build_dir (_format cls platform).

(** The second part of [Toolchain.detect], from [if hint is MSVC] on. *)
Definition dispatch (hint : ToolchainType.t) (platform : option Platform.t)
    (build_dir : string) : result (t * option (string * string)) :=
  match hint with
  | ToolchainType.MSVC => Ok (MSVC platform, None)
  | ToolchainType.GCC => setup GCC_cls platform build_dir
  | ToolchainType.MINGW => setup MinGW_cls platform build_dir
  | ToolchainType.CLANG => setup Clang_cls platform build_dir
  | ToolchainType.CLANG_CL => setup ClangCL_cls platform build_dir
  | ToolchainType.AUTO =>
      Raise (NotImplementedError ("unrecognized toolset: " +:+ hint_str hint))
  end.

(** [Toolchain.detect]: the toolchain, and the file written on the way,
    if any. *)
Definition detect (hint : ToolchainType.t) (platform : option Platform.t)
    (build_dir : string) : result (t * option (string * string)) :=
  match hint with
  | ToolchainType.AUTO =>
      match platform with
      | None => Ok (Auto, None)
      | Some _ =>
          let hint :=
            if on_windows h then ToolchainType.MSVC else ToolchainType.GCC in
          dispatch hint platform build_dir
      end
  | _ => dispatch hint platform build_dir
  end.
End WithParameters.

End CMakeDetect.

(** ** project/ci/cmake.py *)

Module CICMake.

(** The namespace that [_parse_args] returns. *)
Record Args : Type := {
  install : bool;
  boost_dir : option string;
  toolset : option ToolchainType.t;
  cmake_args : list string
}.

(** The [dirs] object (project/ci/dirs.py is not among the sources): what
    each of its getters answers. *)
Record Dirs : Type := {
  get_src_dir : result string;
  get_cmake_dir : result string;
  get_install_dir : result string;
  get_platform : result Platform.t;
  get_configuration : result Configuration.t;
  get_boost_dir : result string;
  get_cmake_args : result (list string)
}.

(** The arguments of the call of [BuildParameters] (project/cmake/build.py
    is not among the sources): the positional one and the seven
    keywords. *)
Record Call : Type := {
  call_src_dir : string;
  call_build_dir : string;
  call_install_dir : option string;
  call_platform : Platform.t;
  call_configuration : Configuration.t;
  call_boost_dir : string;
  call_toolset : option ToolchainType.t;
  call_cmake_args : list string
}.

(** The part of [build_ci] that precedes the call of [BuildParameters]:
    the install directory first, then the arguments from left to
    right. *)
Definition build_ci_call (dirs : Dirs) (args : Args) : result Call :=
  install_dir ← (if install args
                 then d ← get_install_dir dirs; Ok (Some d)
                 else Ok None);
  src_dir ← get_src_dir dirs;
  cmake_dir ← get_cmake_dir dirs;
  platform ← get_platform dirs;
  configuration ← get_configuration dirs;
  boost_dir ← match boost_dir args with
              | Some (String a s) => Ok (String a s)
              | _ => get_boost_dir dirs
              end;
  dirs_cmake_args ← get_cmake_args dirs;
  Ok {| call_src_dir := src_dir;
        call_build_dir := cmake_dir;
        call_install_dir := install_dir;
        call_platform := platform;
        call_configuration := configuration;
        call_boost_dir := boost_dir;
        call_toolset := toolset args;
        call_cmake_args := dirs_cmake_args ++ cmake_args args |}.

(** The same [dirs], but for the answer of one getter. *)
Definition with_install_dir (dirs : Dirs) (r : result string) : Dirs :=
  {| get_src_dir := get_src_dir dirs;
     get_cmake_dir := get_cmake_dir dirs;
     get_install_dir := r;
     get_platform := get_platform dirs;
     get_configuration := get_configuration dirs;
     get_boost_dir := get_boost_dir dirs;
     get_cmake_args := get_cmake_args dirs |}.

Definition with_boost_dir (dirs : Dirs) (r : result string) : Dirs :=
  {| get_src_dir := get_src_dir dirs;
     get_cmake_dir := get_cmake_dir dirs;
     get_install_dir := get_install_dir dirs;
     get_platform := get_platform dirs;
     get_configuration := get_configuration dirs;
     get_boost_dir := r;
     get_cmake_args := get_cmake_args dirs |}.

(** [build_params] is [build(BuildParameters(...))]. *)
Definition build_ci (build_params : Call -> result unit)
    (dirs : Dirs) (args : Args) : result unit :=
  call ← build_ci_call dirs args;
  build_params call.

End CICMake.

(** ** boost/build/ci/travis.py *)

Module Travis.

(** What [build_travis] does to the world: it runs the [main] of the
    sibling module [build] and renames a directory. *)
Inductive action : Type :=
  | BuildMain (argv : list string)
  | Rename (src dst : string).

(** A computation that may raise, with the actions done so far. *)
Definition traced (A : Type) : Type :=
  list action -> list action * result A.

#[global] Instance traced_ret : MRet traced := fun A a log => (log, Ok a).

#[global] Instance traced_bind : MBind traced := fun A B k m log =>
  match m log with
  | (log, Ok a) => k a log
  | (log, Raise e) => (log, Raise e)
  end.

(** A step that does nothing to the world. *)
Definition pure_step {A : Type} (r : result A) : traced A :=
  fun log => (log, r).

(** A step that does [a], with the outcome [r]. *)
Definition perform (a : action) (r : result unit) : traced unit :=
  fun log => (log ++ [a], r).

(** The namespace that [_parse_args] returns. *)
Record Args : Type := {
  link : option (list string);
  runtime_link : option string;
  b2_args : list string
}.

Section WithCollaborators.
Variable h : Host.
(** [os.environ]; [build_main] and [os.rename] are taken to leave it
    alone. *)
Variable environ : gmap string string.
(** The sibling module [build] is not among the sources:
    [BoostVersion.from_string], [str] of a version, [version.dir_path]
    and the outcome of [main]. *)
Variable BoostVersion : Type.
Variable from_string : string -> result BoostVersion.
Variable version_str : BoostVersion -> string.
Variable dir_path : BoostVersion -> string -> string.
Variable build_main : list string -> result unit.
(** The outcome of [os.rename]. *)
Variable rename : string -> string -> result unit.

Definition _env (name : string) : result string :=
  match environ !! name with
  | None => Raise (RuntimeError ("undefined environment variable: " +:+ name))
  | Some v => Ok v
  end.

Definition _check_travis : result unit :=
  match environ !! "TRAVIS" with
  | None => Raise (RuntimeError "not running on Travis")
  | Some _ => Ok tt
  end.

Definition _get_build_dir : result string := _env "HOME".

Definition _get_boost_dir : result string :=
  build_dir ← _get_build_dir;
  Ok (os_path_join h build_dir "boost").

Definition _get_boost_version : result string := _env "travis_boost_version".

Definition _get_configuration : result string := _env "configuration".

Definition _get_platform : result string := _env "platform".

(** The argument vector of the second call of [build_main]. *)
Definition build_argv (configuration platform boost_dir : string)
    (args : Args) : list string :=
  let travis_argv :=
    ["build"; "--configuration"; configuration; "--platform"; platform] in
  let travis_argv :=
    match link args with
    | Some l => (travis_argv ++ ["--link"]) ++ l
    | None => travis_argv
    end in
  let travis_argv :=
    match runtime_link args with
    | Some r => travis_argv ++ ["--runtime-link"; r]
    | None => travis_argv
    end in
  let travis_argv := travis_argv ++ ["--"; boost_dir] in
  travis_argv ++ b2_args args.

Definition build_travis (args : Args) : traced unit :=
  _ ← pure_step _check_travis;
  s ← pure_step _get_boost_version;
  version ← pure_step (from_string s);
  build_dir ← pure_step _get_build_dir;
  let travis_argv :=
    ["download"; "--unpack"; build_dir; "--"; version_str version] in
  _ ← perform (BuildMain travis_argv) (build_main travis_argv);
  build_dir ← pure_step _get_build_dir;
  let unpacked_boost_dir := dir_path version build_dir in
  boost_dir ← pure_step _get_boost_dir;
  _ ← perform (Rename unpacked_boost_dir boost_dir)
        (rename unpacked_boost_dir boost_dir);
  configuration ← pure_step _get_configuration;
  platform ← pure_step _get_platform;
  let travis_argv := build_argv configuration platform boost_dir args in
  perform (BuildMain travis_argv) (build_main travis_argv).
End WithCollaborators.

End Travis.

(** ** Invariants of the generator of [enum_b2_args] *)

(** The expansion that a generator created over the directories [fs0]
    goes through: nothing, when it cannot make its build directory. *)
Definition expansion_from (h : Host) (self : BuildParameters.t)
    (fs0 : gset string) : list (list string) :=
  match _create_build_dir_enter h self fs0 with
  | Ok (dir, _, _) => enum_b2_args_in h self dir
  | Raise _ => []
  end.

(** The argument lists [ys] yielded so far, and those still to come, make
    up the expansion. *)
Definition in_order (h : Host) (self : BuildParameters.t)
    (fs0 : gset string) (c : gen_config) (ys : list (list string)) : Prop :=
  match st c with
  | Created => fs c = fs0 /\ ys = []
  | Suspended _ pending => ys ++ pending = expansion_from h self fs0
  | Finished => ys `prefix_of` expansion_from h self fs0
  end.


(** ** Theorems *)

(** *** The linkage legality resolver *)

(** C1: [_linkage_options] yields one pair per requested library linkage,
    in order and with the library linkage untouched; the runtime linkage
    of the pair is shared when the requested runtime linkage is static
    and either the library linkage is shared or the host is Linux, and is
    the requested runtime linkage otherwise.  The generator is total: it
    raises nothing. *)
Theorem linkage_options_legal (h : Host) (self : BuildParameters.t) :
  Forall2
    (fun link yielded_pair =>
       fst yielded_pair = link /\
       (forces_shared h self link -> snd yielded_pair = Linkage.SHARED) /\
       (~ forces_shared h self link -> snd yielded_pair = runtime_link self))
    (link self) (_linkage_options h self).
Proof.
  unfold _linkage_options.
  induction (link self) as [|l ls IH]; simpl; constructor; [|exact IH].
  unfold forces_shared; simpl.
  destruct (runtime_link self), l, (on_linux h); intuition congruence.
Qed.

(** *** Defaults of the constructor *)

(** Every requested combination has its argument list in the
    expansion. *)
Lemma enum_b2_args_in_covers (h : Host) (self : BuildParameters.t)
    (dir : string) (p : Platform.t) (c : Configuration.t) (lk : Linkage.t) :
  p ∈ platforms self -> c ∈ configurations self -> lk ∈ link self ->
  exists rl,
    (lk, rl) ∈ _linkage_options h self /\
    _build_params h self dir p c lk rl ∈ enum_b2_args_in h self dir.
Proof.
  intros Hp Hc Hl.
  assert (Hopt : exists rl, (lk, rl) ∈ _linkage_options h self).
  { unfold _linkage_options.
    eexists. apply list_elem_of_fmap. exists lk. split; [reflexivity|exact Hl]. }
  destruct Hopt as [rl Hrl]. exists rl. split; [exact Hrl|].
  unfold enum_b2_args_in.
  apply list_elem_of_bind. exists p. split; [|exact Hp].
  apply list_elem_of_bind. exists c. split; [|exact Hc].
  apply list_elem_of_bind. exists (lk, rl). split; [|exact Hrl].
  apply list_elem_of_singleton. reflexivity.
Qed.

(** The link, address-model and variant flags of the list of a requested
    combination. *)
Lemma enum_b2_args_in_flags (h : Host) (self : BuildParameters.t)
    (dir : string) (p : Platform.t) (c : Configuration.t) (lk : Linkage.t) :
  p ∈ platforms self -> c ∈ configurations self -> lk ∈ link self ->
  exists args,
    args ∈ enum_b2_args_in h self dir /\
    args !! 2 = Some ("link=" +:+ Linkage.str lk) /\
    args !! 4 = Some ("address-model=" +:+ Platform.get_address_model p) /\
    args !! 5 = Some ("variant=" +:+ Configuration.to_boost_variant c).
Proof.
  intros Hp Hc Hl.
  destruct (enum_b2_args_in_covers h self dir p c lk Hp Hc Hl)
    as (rl & _ & Hin).
  exists (_build_params h self dir p c lk rl).
  split; [exact Hin|]. repeat split; reflexivity.
Qed.

(** C10: a [BuildParameters] built with the platforms, the configurations
    or the library linkages omitted or empty holds all the members of
    that enumeration and is the object built with all of them passed, so
    that its expansion is the same, and has an argument list for every
    member; a list that is not empty is kept as it is.  An omitted
    runtime linkage is static, and one that is given is kept. *)
Theorem init_defaults_to_full_enumeration (h : Host)
    (boost_dir : string) (build_dir : option string)
    (platforms : option (list Platform.t))
    (configurations : option (list Configuration.t))
    (link : option (list Linkage.t))
    (runtime_link : option Linkage.t) (b2_args : option (list string)) :
  let self := __init__ h boost_dir build_dir platforms configurations link
                runtime_link b2_args in
  let same_expansion (other : BuildParameters.t) :=
    self = other /\
    forall dir, enum_b2_args_in h self dir = enum_b2_args_in h other dir in
  let covers (ps : list Platform.t) (cs : list Configuration.t)
      (ls : list Linkage.t) :=
    forall dir p c lk, p ∈ ps -> c ∈ cs -> lk ∈ ls ->
    exists args,
      args ∈ enum_b2_args_in h self dir /\
      args !! 2 = Some ("link=" +:+ Linkage.str lk) /\
      args !! 4 = Some ("address-model=" +:+ Platform.get_address_model p) /\
      args !! 5 = Some ("variant=" +:+ Configuration.to_boost_variant c) in
  (omitted platforms ->
     BuildParameters.platforms self = Platform.all /\
     same_expansion (__init__ h boost_dir build_dir (Some Platform.all)
                       configurations link runtime_link b2_args) /\
     covers Platform.all (BuildParameters.configurations self)
       (BuildParameters.link self)) /\
  (omitted configurations ->
     BuildParameters.configurations self = Configuration.all /\
     same_expansion (__init__ h boost_dir build_dir platforms
                       (Some Configuration.all) link runtime_link b2_args) /\
     covers (BuildParameters.platforms self) Configuration.all
       (BuildParameters.link self)) /\
  (omitted link ->
     BuildParameters.link self = Linkage.all /\
     same_expansion (__init__ h boost_dir build_dir platforms configurations
                       (Some Linkage.all) runtime_link b2_args) /\
     covers (BuildParameters.platforms self)
       (BuildParameters.configurations self) Linkage.all) /\
  (runtime_link = None ->
     BuildParameters.runtime_link self = Linkage.STATIC /\
     same_expansion (__init__ h boost_dir build_dir platforms configurations
                       link (Some Linkage.STATIC) b2_args)) /\
  (forall l, platforms = Some l -> l <> [] ->
     BuildParameters.platforms self = l) /\
  (forall l, configurations = Some l -> l <> [] ->
     BuildParameters.configurations self = l) /\
  (forall l, link = Some l -> l <> [] -> BuildParameters.link self = l) /\
  (forall r, runtime_link = Some r -> BuildParameters.runtime_link self = r).
Proof.
  intros self same_expansion covers; subst self same_expansion covers;
    cbv beta.
  split; [|split; [|split; [|split; [|split; [|split; [|split]]]]]].
  - intros [-> | ->]; (split; [reflexivity|]); (split; [split; reflexivity|]);
      intros dir p c lk Hp Hc Hl;
      match goal with
      | |- context [enum_b2_args_in h ?s dir] =>
          exact (enum_b2_args_in_flags h s dir p c lk Hp Hc Hl)
      end.
  - intros [-> | ->]; (split; [reflexivity|]); (split; [split; reflexivity|]);
      intros dir p c lk Hp Hc Hl;
      match goal with
      | |- context [enum_b2_args_in h ?s dir] =>
          exact (enum_b2_args_in_flags h s dir p c lk Hp Hc Hl)
      end.
  - intros [-> | ->]; (split; [reflexivity|]); (split; [split; reflexivity|]);
      intros dir p c lk Hp Hc Hl;
      match goal with
      | |- context [enum_b2_args_in h ?s dir] =>
          exact (enum_b2_args_in_flags h s dir p c lk Hp Hc Hl)
      end.
  - intros ->; repeat split; reflexivity.
  - intros l -> Hne. destruct l; [congruence | reflexivity].
  - intros l -> Hne. destruct l; [congruence | reflexivity].
  - intros l -> Hne. destruct l; [congruence | reflexivity].
  - intros r ->. reflexivity.
Qed.

(** At an empty platform list the parameters hold both platforms, and
    are those built with both passed. *)
Lemma init_defaults_witness :
  omitted (Some ([] : list Platform.t)) /\
  BuildParameters.platforms
    (__init__ linux_host "boost" None (Some []) None None None None)
  = [Platform.X86; Platform.X64] /\
  __init__ linux_host "boost" None (Some []) None None None None
  = __init__ linux_host "boost" None (Some Platform.all) None None None None.
Proof.
  split; [right; reflexivity|].
  split.
  - refine (proj1 (proj1 (init_defaults_to_full_enumeration linux_host "boost"
                            None (Some []) None None None None) _)).
    right; reflexivity.
  - refine (proj1 (proj1 (proj2 (proj1 (init_defaults_to_full_enumeration
                                          linux_host "boost" None (Some [])
                                          None None None None) _)))).
    right; reflexivity.
Defined.

(** *** Order of the expansion *)

Section NestedLoops.
Context {A B : Type}.

(** A loop whose body yields once per element. *)
Lemma bind_yield_one (g : A -> B) (l : list A) :
  (x ← l; [g x]) = map g l.
Proof.
  induction l as [|a l IH]; [reflexivity|].
  rewrite bind_cons, IH. reflexivity.
Qed.

Variable f : A -> list B.
Variable n : nat.
Hypothesis body_length : forall a, List.length (f a) = n.

(** A loop whose body yields [n] values per element yields [n] values
    for each element, ... *)
Lemma bind_length_const (l : list A) :
  List.length (l ≫= f) = List.length l * n.
Proof.
  induction l as [|a l IH]; [reflexivity|].
  rewrite bind_cons, length_app, IH, body_length. simpl. lia.
Qed.

(** ... and the [k]-th value of the [i]-th element comes at position
    [i * n + k]. *)
Lemma bind_lookup_const (l : list A) (i k : nat) (a : A) :
  l !! i = Some a -> k < n -> (l ≫= f) !! (i * n + k) = f a !! k.
Proof.
  revert i. induction l as [|a' l IH]; intros i Hi Hk; [discriminate|].
  rewrite bind_cons. destruct i as [|i]; simpl in Hi.
  - injection Hi as ->. simpl. apply lookup_app_l. rewrite body_length. exact Hk.
  - rewrite lookup_app_r by (rewrite body_length; lia).
    rewrite body_length.
    replace (S i * n + k - n) with (i * n + k) by lia.
    apply IH; assumption.
Qed.
End NestedLoops.

Lemma linkage_options_length (h : Host) (self : BuildParameters.t) :
  List.length (_linkage_options h self) = List.length (link self).
Proof. unfold _linkage_options. apply length_map. Qed.

(** The six flags that [_build_params] puts in front of the pass-through
    arguments. *)
Lemma build_params_shape (h : Host) (self : BuildParameters.t) (dir : string)
    (platform : Platform.t) (configuration : Configuration.t)
    (lk rl : Linkage.t) :
  _build_params h self dir platform configuration lk rl
  = [ _build_dir dir; _stagedir h self platform configuration; _link lk;
      _runtime_link rl; _address_model platform; _variant configuration ]
    ++ b2_args self.
Proof. reflexivity. Qed.

(** The body of the innermost loop yields once per linkage pair. *)
Lemma inner_loop_map (h : Host) (self : BuildParameters.t) (dir : string)
    (p : Platform.t) (c : Configuration.t) :
  ('(lk, rl) ← _linkage_options h self;
   [_build_params h self dir p c lk rl])
  = map (fun x : Linkage.t * Linkage.t =>
           _build_params h self dir p c x.1 x.2)
        (_linkage_options h self).
Proof.
  induction (_linkage_options h self) as [|[lk rl] l IH]; [reflexivity|].
  rewrite bind_cons, IH. reflexivity.
Qed.

(** Every argument list of the expansion was built by [_build_params]
    for a requested platform, a requested configuration and a resolved
    linkage pair. *)
Lemma enum_b2_args_in_member (h : Host) (self : BuildParameters.t)
    (dir : string) (args : list string) :
  args ∈ enum_b2_args_in h self dir ->
  exists platform configuration lk rl,
    platform ∈ platforms self /\ configuration ∈ configurations self /\
    (lk, rl) ∈ _linkage_options h self /\
    args = _build_params h self dir platform configuration lk rl.
Proof.
  unfold enum_b2_args_in. intros Hin.
  apply list_elem_of_bind in Hin as (platform & Hin & Hp).
  apply list_elem_of_bind in Hin as (configuration & Hin & Hc).
  rewrite inner_loop_map in Hin.
  apply list_elem_of_fmap in Hin as ([lk rl] & -> & Hl).
  exists platform, configuration, lk, rl. auto.
Qed.

(** The argument list of the [i]-th platform, the [j]-th configuration
    and the [k]-th linkage pair, and the length of the expansion. *)
Lemma enum_b2_args_in_lookup (h : Host) (self : BuildParameters.t)
    (dir : string) :
  let nC := List.length (configurations self) in
  let nL := List.length (link self) in
  List.length (enum_b2_args_in h self dir)
    = List.length (platforms self) * nC * nL /\
  (forall i j k platform configuration lk rl,
     platforms self !! i = Some platform ->
     configurations self !! j = Some configuration ->
     _linkage_options h self !! k = Some (lk, rl) ->
     enum_b2_args_in h self dir !! ((i * nC + j) * nL + k)
       = Some (_build_params h self dir platform configuration lk rl)).
Proof.
  intros nC nL.
  pose (inner := fun (platform : Platform.t) (configuration : Configuration.t) =>
    '(lk, rl) ← _linkage_options h self;
    [_build_params h self dir platform configuration lk rl]).
  pose (middle := fun platform : Platform.t =>
    configurations self ≫= inner platform).
  assert (Hinner : forall p c,
             inner p c = map (fun x : Linkage.t * Linkage.t =>
                                _build_params h self dir p c x.1 x.2)
                             (_linkage_options h self)).
  { intros p c. apply inner_loop_map. }
  assert (HLi : forall p c, List.length (inner p c) = nL).
  { intros p c. rewrite Hinner, length_map. apply linkage_options_length. }
  assert (HLm : forall p, List.length (middle p) = nC * nL).
  { intros p. unfold middle.
    apply (bind_length_const (inner p) nL (HLi p)). }
  change (enum_b2_args_in h self dir) with (platforms self ≫= middle).
  split.
  - rewrite (bind_length_const middle (nC * nL) HLm). lia.
  - intros i j k platform configuration lk rl Hi Hj Hk.
    assert (Hk' : k < nL).
    { unfold nL. rewrite <- (linkage_options_length h self).
      apply lookup_lt_is_Some. eauto. }
    assert (Hj' : j < nC) by (apply lookup_lt_is_Some; eauto).
    replace ((i * nC + j) * nL + k) with (i * (nC * nL) + (j * nL + k)) by lia.
    rewrite (bind_lookup_const middle (nC * nL) HLm _ _ _ platform Hi) by nia.
    unfold middle.
    rewrite (bind_lookup_const (inner platform) nL (HLi platform)
               _ _ _ configuration Hj Hk').
    rewrite Hinner, list_lookup_fmap, Hk. reflexivity.
Qed.

(** The [k]-th linkage pair is the one of the [k]-th library linkage. *)
Lemma linkage_options_lookup (h : Host) (self : BuildParameters.t)
    (k : nat) (lk : Linkage.t) :
  link self !! k = Some lk ->
  exists rl, _linkage_options h self !! k = Some (lk, rl).
Proof.
  intros Hk. unfold _linkage_options. rewrite list_lookup_fmap, Hk.
  simpl. eexists. reflexivity.
Qed.

(** The [--stagedir] flag of parameters whose staging directory is the
    one that [__init__] sets. *)
Lemma stagedir_of_stage (h : Host) (self : BuildParameters.t)
    (p : Platform.t) (c : Configuration.t) :
  stage_dir self = "stage" ->
  _stagedir h self p c
  = "--stagedir=stage" +:+ sep h +:+ Platform.str p +:+ sep h
      +:+ Configuration.str c.
Proof.
  intros Hstage. unfold _stagedir, path_join, join2, sep. rewrite Hstage.
  destruct (on_windows h), p, c; vm_compute; reflexivity.
Qed.

(** C7: [enum_b2_args] yields one argument list per platform,
    configuration and library linkage, with the platforms as the outer
    loop, the configurations as the middle loop and the linkages as the
    inner loop: the list at position [(i * |C| + j) * |L| + k] is the one
    of the [i]-th platform, the [j]-th configuration and the [k]-th
    linkage.  That list is the build-dir, stagedir, link, runtime-link,
    address-model and variant flags of this combination, in that order,
    with the runtime linkage that [_linkage_options] pairs with the
    [k]-th linkage, followed by the pass-through arguments; and every
    list of the expansion stands at such a position.  The staging
    directory is [stage], as [__init__] sets it. *)
Theorem enum_b2_args_order (h : Host) (self : BuildParameters.t)
    (dir : string) :
  let nC := List.length (configurations self) in
  let nL := List.length (link self) in
  let flags (p : Platform.t) (c : Configuration.t) (lk rl : Linkage.t) :=
    [ "--build-dir=" +:+ dir;
      "--stagedir=stage" +:+ sep h +:+ Platform.str p +:+ sep h
        +:+ Configuration.str c;
      "link=" +:+ Linkage.str lk;
      "runtime-link=" +:+ Linkage.str rl;
      "address-model=" +:+ Platform.get_address_model p;
      "variant=" +:+ Configuration.to_boost_variant c ] in
  stage_dir self = "stage" ->
  List.length (enum_b2_args_in h self dir)
    = List.length (platforms self) * nC * nL /\
  (forall i j k p c lk,
     platforms self !! i = Some p ->
     configurations self !! j = Some c ->
     link self !! k = Some lk ->
     exists rl,
       _linkage_options h self !! k = Some (lk, rl) /\
       enum_b2_args_in h self dir !! ((i * nC + j) * nL + k)
       = Some (flags p c lk rl ++ b2_args self)) /\
  (forall n args,
     enum_b2_args_in h self dir !! n = Some args ->
     exists i j k p c lk rl,
       n = (i * nC + j) * nL + k /\
       platforms self !! i = Some p /\
       configurations self !! j = Some c /\
       link self !! k = Some lk /\
       _linkage_options h self !! k = Some (lk, rl) /\
       args = flags p c lk rl ++ b2_args self).
Proof.
  intros nC nL flags Hstage.
  assert (Hflags : forall p c lk rl,
            _build_params h self dir p c lk rl
            = flags p c lk rl ++ b2_args self).
  { intros p c lk rl. rewrite build_params_shape.
    rewrite (stagedir_of_stage h self p c Hstage). reflexivity. }
  destruct (enum_b2_args_in_lookup h self dir) as [Hlen Hpos].
  fold nC nL in Hlen, Hpos.
  split; [exact Hlen|]. split.
  - intros i j k p c lk Hi Hj Hk.
    destruct (linkage_options_lookup h self k lk Hk) as [rl Hrl].
    exists rl. split; [exact Hrl|].
    rewrite (Hpos i j k p c lk rl Hi Hj Hrl), Hflags. reflexivity.
  - intros n args Hn.
    assert (Hlt : n < List.length (platforms self) * nC * nL).
    { rewrite <- Hlen. apply lookup_lt_is_Some. eauto. }
    assert (HL : 0 < nL) by (destruct nL; [lia | lia]).
    assert (HC : 0 < nC) by (destruct nC; [lia | lia]).
    pose (k := n mod nL). pose (q := n / nL).
    pose (j := q mod nC). pose (i := q / nC).
    assert (Hk : k < nL) by (apply Nat.mod_upper_bound; lia).
    assert (Hj : j < nC) by (apply Nat.mod_upper_bound; lia).
    assert (Hn' : n = (i * nC + j) * nL + k).
    { unfold i, j, k, q.
      pose proof (Nat.div_mod n nL ltac:(lia)) as H1.
      pose proof (Nat.div_mod (n / nL) nC ltac:(lia)) as H2. nia. }
    clearbody i j k q.
    assert (Hi : i < List.length (platforms self)).
    { destruct (Nat.lt_ge_cases i (List.length (platforms self)))
        as [Hok|Hge]; [exact Hok|].
      assert (H1 : List.length (platforms self) * (nC * nL) <= i * (nC * nL))
        by (apply Nat.mul_le_mono_r; exact Hge).
      assert (H2 : i * (nC * nL) <= n) by (rewrite Hn'; nia).
      lia. }
    destruct (lookup_lt_is_Some_2 (platforms self) i Hi) as [p Hp].
    destruct (lookup_lt_is_Some_2 (configurations self) j Hj) as [c Hc].
    destruct (lookup_lt_is_Some_2 (link self) k Hk) as [lk Hlk].
    destruct (linkage_options_lookup h self k lk Hlk) as [rl Hrl].
    exists i, j, k, p, c, lk, rl.
    split; [exact Hn'|]. split; [exact Hp|]. split; [exact Hc|].
    split; [exact Hlk|]. split; [exact Hrl|].
    pose proof (Hpos i j k p c lk rl Hp Hc Hrl) as Hat.
    rewrite <- Hn', Hn in Hat. injection Hat as ->. apply Hflags.
Qed.

(** At the second platform, the first configuration and the second
    linkage of the default parameters. *)
Lemma enum_b2_args_order_witness :
  stage_dir default_params = "stage" /\
  Platform.all !! 1 = Some Platform.X64 /\
  Configuration.all !! 0 = Some Configuration.DEBUG /\
  Linkage.all !! 1 = Some Linkage.SHARED /\
  enum_b2_args_in linux_host default_params "build" !! ((1 * 2 + 0) * 2 + 1)
  = Some (["--build-dir=build"; "--stagedir=stage/x64/debug";
           "link=shared"; "runtime-link=shared";
           "address-model=64"; "variant=debug"] ++ []).
Proof.
  split; [reflexivity|].
  split; [reflexivity|]. split; [reflexivity|]. split; [reflexivity|].
  destruct (proj1 (proj2 (enum_b2_args_order linux_host default_params
                            "build" eq_refl))
              1 0 1 Platform.X64 Configuration.DEBUG Linkage.SHARED
              eq_refl eq_refl eq_refl) as [rl [Hrl Hat]].
  injection Hrl as <-. exact Hat.
Defined.

(** *** The staging directory *)

Lemma prefix_append (s t : string) : String.prefix s (s +:+ t) = true.
Proof.
  induction s as [|a s IH]; simpl.
  - destruct t; reflexivity.
  - destruct (ascii_dec a a) as [_|Hne]; [exact IH | contradiction].
Qed.

(** The first flag of an argument list that starts with [--stagedir=] is
    the one [_stagedir] made. *)
Lemma stagedir_flag_build_params (h : Host) (self : BuildParameters.t)
    (dir : string) (platform : Platform.t) (configuration : Configuration.t)
    (lk rl : Linkage.t) :
  stagedir_flag (_build_params h self dir platform configuration lk rl)
  = Some (_stagedir h self platform configuration).
Proof.
  unfold stagedir_flag, _build_params, _stagedir. simpl.
  rewrite prefix_append. reflexivity.
Qed.

(** With the default linkages, the static and the shared build of one
    platform and configuration are two different argument lists with the
    same [--stagedir]. *)
Lemma stagedir_shared_between_linkages :
  ~ stagedir_unique linux_host default_params "build".
Proof.
  intros Huniq.
  apply (Huniq
           (_build_params linux_host default_params "build"
              Platform.X86 Configuration.DEBUG Linkage.STATIC Linkage.SHARED)
           (_build_params linux_host default_params "build"
              Platform.X86 Configuration.DEBUG Linkage.SHARED Linkage.SHARED)).
  - apply list_elem_of_In. vm_compute. tauto.
  - apply list_elem_of_In. vm_compute. tauto.
  - discriminate.
  - reflexivity.
Qed.

(** C2 (amended): the [--stagedir] flag of an argument list is a function
    of its platform and configuration alone, and an injective one: the
    lists of two combinations carry the same flag exactly when the
    combinations have the same platform and the same configuration,
    whatever their linkages. *)
Theorem stagedir_keyed_by_platform_configuration (h : Host)
    (boost_dir : string) (build_dir : option string)
    (platforms : option (list Platform.t))
    (configurations : option (list Configuration.t))
    (link : option (list Linkage.t)) (runtime_link : option Linkage.t)
    (b2_args : option (list string)) (dir : string)
    (p p' : Platform.t) (c c' : Configuration.t) (lk rl lk' rl' : Linkage.t) :
  let self := __init__ h boost_dir build_dir platforms configurations link
                runtime_link b2_args in
  stagedir_flag (_build_params h self dir p c lk rl)
  = stagedir_flag (_build_params h self dir p' c' lk' rl')
  <-> p = p' /\ c = c'.
Proof.
  intros self. rewrite !stagedir_flag_build_params.
  subst self. unfold _stagedir, __init__, path_join, join2, sep. simpl.
  destruct (on_windows h), p, p', c, c'; split;
    first [ intros _; split; reflexivity
          | intros H; vm_compute in H; discriminate H
          | intros [H1 H2]; discriminate
          | reflexivity ].
Qed.

(** *** Resolution of the compiler executable *)

Import BoostToolchain.

(** C3: on Linux [_full_exe_name] returns the name it was given.
    Elsewhere it looks the name up, in the directory of the name when it
    has one and on the search path otherwise; when the lookup finds a
    path, the result is that path (with the [.exe] that Cygwin hides) for
    a directory-qualified name and its basename for a bare name.  It
    raises, and then the "could not be found" error, exactly when the
    host is not Linux and the lookup finds nothing. *)
Theorem full_exe_name_resolution (h : Host) (exe : string) :
  let found := which h exe (dir_path_of h exe) in
  (on_linux h = true -> _full_exe_name h exe = Ok exe) /\
  (on_linux h = false -> not_found found = false ->
   exists path,
     found = Some path /\
     _full_exe_name h exe
     = Ok (if str_truthy (dirname h exe)
           then with_cygwin_extension h path
           else basename h (with_cygwin_extension h path))) /\
  (raises (_full_exe_name h exe)
   <-> on_linux h = false /\ not_found found = true) /\
  (raises (_full_exe_name h exe) ->
   _full_exe_name h exe
   = Raise (RuntimeError ("executable '" +:+ exe +:+ "' could not be found"))).
Proof.
  intros found. subst found.
  unfold _full_exe_name, dir_path_of, with_cygwin_extension.
  destruct (on_linux h).
  - split; [reflexivity|]. split; [discriminate|].
    split; [split; [intros [] | intros [H _]; discriminate H] | intros []].
  - split; [discriminate|].
    destruct (which h exe _) as [[|a path]|] eqn:Hfound; simpl.
    + split; [discriminate|]. split; [tauto | reflexivity].
    + split; [| split].
      * intros _ _. exists (String a path). split; [reflexivity|].
        destruct (str_truthy (dirname h exe)); reflexivity.
      * destruct (str_truthy (dirname h exe)); simpl;
          (split; [intros [] | intros [_ H]; discriminate H]).
      * destruct (str_truthy (dirname h exe)); simpl; intros [].
    + split; [discriminate|]. split; [tauto | reflexivity].
Qed.

(** On the Windows host, [g++] resolves to the basename of the path that
    the lookup finds. *)
Lemma full_exe_name_resolution_witness :
  on_linux windows_host = false /\
  _full_exe_name windows_host "g++" = Ok "g++.EXE".
Proof.
  split; [reflexivity|].
  destruct (proj1 (proj2 (full_exe_name_resolution windows_host "g++"))
              eq_refl eq_refl) as (path & Hfound & ->).
  vm_compute in Hfound. injection Hfound as <-. reflexivity.
Defined.

(** *** The build directory as a scoped resource *)

Section BuildDirScope.
Variable h : Host.
Variable self : BuildParameters.t.




(** With an explicit build directory: the generator makes nothing,
    leaves the directories as they are, and every argument list it has
    yet to yield starts with the flag of that directory. *)
Variable fs0 : gset string.
Variable d : string.
Hypothesis explicit : build_dir self = Some d.



End BuildDirScope.


Lemma gen_run_cons (h : Host) (self : BuildParameters.t) (c : gen_config)
    (e : gen_event) (es : list gen_event) :
  gen_run h self c (e :: es)
  = ((gen_run h self (gen_step h self c e).1 es).1,
     (gen_step h self c e).2 :: (gen_run h self (gen_step h self c e).1 es).2).
Proof.
  simpl. destruct (gen_step h self c e) as [c1 o]. simpl.
  destruct (gen_run h self c1 es) as [c2 os]. reflexivity.
Qed.







(** *** Toolchain configuration files *)

Lemma prefix_app_l (n a b : string) :
  String.prefix n a = true -> String.prefix n (a +:+ b) = true.
Proof.
  revert a. induction n as [|x n IH]; intros a Hp.
  - destruct (a +:+ b); reflexivity.
  - destruct a as [|y a]; [discriminate Hp|].
    simpl in *. destruct (ascii_dec x y); [auto | discriminate Hp].
Qed.

(** What a string contains, it still contains when text is appended. *)
Lemma str_contains_app_l (n a b : string) :
  str_contains n a = true -> str_contains n (a +:+ b) = true.
Proof.
  induction a as [|y a IH]; simpl; intros Hc.
  - rewrite orb_false_r in Hc.
    destruct n; [|discriminate Hc].
    destruct b; reflexivity.
  - apply orb_true_iff in Hc as [Hp | Hc].
    + apply orb_true_iff. left.
      exact (prefix_app_l n (String y a) b Hp).
    + apply orb_true_iff. right. auto.
Qed.

(** With no configuration file and the architecture flag as the flag of
    the platform, the clang-cl strategy on a Windows host hands b2
    nothing that names the debug and static C runtime. *)
Lemma clang_cl_emits_no_dependent_lib :
  exists r,
    Toolchain.detect windows_host (fun _ => "g++") (fun _ => "user_config.jam")
      ToolchainType.CLANG_CL Platform.X64 = Ok r /\
    Toolchain.emits spec_platform_b2_args "--dependent-lib=libcmtd" r
      Configuration.DEBUG = false.
Proof. eexists. split; reflexivity. Qed.

(** C5 (amended): the four runtime-selection lines, one for each of
    debug and release with a static and a shared runtime, and among them
    the debug and static one that names [libcmtd], are in the
    configuration file that hint clang generates.  Hint clang-cl
    generates no configuration file: its strategy adds [toolset=clang-win]
    and [define=BOOST_USE_WINDOWS_H] to the flags of the platform, for
    every configuration, and neither of them names a dependent
    library. *)
Theorem clang_runtime_directives (h : Host)
    (platform_b2_args : Platform.t -> Configuration.t -> list string)
    (gxx : Platform.t -> string) (temp_file : string -> string)
    (platform : Platform.t) (configuration : Configuration.t) :
  (forall toolset c rl,
     str_contains (dependent_lib_directive c rl) (Clang.format_config toolset)
     = true) /\
  str_contains "--dependent-lib=libcmtd"
    (dependent_lib_directive Configuration.DEBUG Linkage.STATIC) = true /\
  match Toolchain.detect h gxx temp_file ToolchainType.CLANG platform with
  | Ok r =>
      exists toolset,
        Clang.get_toolset h platform = Ok toolset /\
        r = (Toolchain.ConfigFile Toolchain.Clang_cls platform
               (temp_file (Clang.format_config toolset)) toolset,
             Some (Clang.format_config toolset))
  | Raise e => Clang.get_toolset h platform = Raise e
  end /\
  Toolchain.detect h gxx temp_file ToolchainType.CLANG_CL platform
  = Ok (Toolchain.ClangCL platform, None) /\
  Toolchain.b2_args platform_b2_args (Toolchain.ClangCL platform) configuration
  = platform_b2_args platform configuration
    ++ ["toolset=clang-win"; "define=BOOST_USE_WINDOWS_H"] /\
  existsb (str_contains "--dependent-lib")
    ["toolset=clang-win"; "define=BOOST_USE_WINDOWS_H"] = false.
Proof.
  split; [|split; [|split; [|split; [|split]]]]; try reflexivity.
  - intros toolset c rl. unfold Clang.format_config.
    apply str_contains_app_l. destruct c, rl; vm_compute; reflexivity.
  - unfold Toolchain.detect, Toolchain.setup, Toolchain.get_toolset,
      Toolchain.format_config.
    destruct (Clang.get_toolset h platform) as [toolset|e]; simpl.
    + exists toolset. split; reflexivity.
    + reflexivity.
Qed.

(** On the Windows host, the file of hint clang has the debug and static
    line. *)
Lemma clang_runtime_directives_witness :
  exists r config,
    Toolchain.detect windows_host (fun _ => "g++") (fun _ => "user_config.jam")
      ToolchainType.CLANG Platform.X64 = Ok r /\
    r.2 = Some config /\
    str_contains
      (dependent_lib_directive Configuration.DEBUG Linkage.STATIC) config
    = true.
Proof.
  pose proof (clang_runtime_directives windows_host spec_platform_b2_args
                (fun _ => "g++") (fun _ => "user_config.jam")
                Platform.X64 Configuration.DEBUG) as (Hall & _ & Hdetect & _).
  destruct (Toolchain.detect windows_host (fun _ => "g++")
              (fun _ => "user_config.jam") ToolchainType.CLANG Platform.X64)
    as [r|e] eqn:Hr; [|discriminate Hr].
  destruct Hdetect as (toolset & _ & ->).
  eexists _, _. split; [reflexivity|]. split; [reflexivity|]. apply Hall.
Defined.

Lemma str_contains_app_r (n a b : string) :
  str_contains n b = true -> str_contains n (a +:+ b) = true.
Proof.
  intros Hc. induction a as [|y a IH]; [exact Hc|].
  simpl. apply orb_true_iff. right. exact IH.
Qed.

(** The toolchain file that hint gcc writes for CMake on platform x64
    names g++ but suppresses no warning. *)
Lemma cmake_gcc_file_has_no_warning_flags :
  names_gxx_and_suppresses_warnings
    (CMakeToolchain.GCC._format (Some Platform.X64)) = false.
Proof. vm_compute. reflexivity. Qed.

Lemma gcc_get_toolset_resolves (h : Host) (platform : Platform.t) :
  match GCC.get_toolset h platform with
  | Ok toolset =>
      exists path,
        _full_exe_name h "g++" = Ok path /\
        toolset = {| BoostBuildToolset.compiler := "gcc";
                     BoostBuildToolset.version := "custom";
                     BoostBuildToolset.path := path;
                     BoostBuildToolset.options := GCC.get_options |}
  | Raise e => _full_exe_name h "g++" = Raise e
  end.
Proof.
  unfold GCC.get_toolset, BoostBuildToolset.__init__. simpl.
  destruct (_full_exe_name h "g++") as [path|e]; simpl.
  - exists path. split; reflexivity.
  - reflexivity.
Qed.

(** C6 (amended): for hint gcc, the user configuration that the Boost
    strategy generates is the [using gcc] rule with the executable that
    [g++] resolves to ([g++] itself on Linux) and the two warning
    suppressions; it is the same for both platforms, and no configuration
    or linkage enters it.  The toolchain file that the CMake strategy
    generates for platform x64 sets [g++] as the C++ compiler and [-m64]
    as the compiler flags, and has no warning suppression. *)
Theorem gcc_config_files (h : Host) (gxx : Platform.t -> string)
    (temp_file : string -> string) (platform : Platform.t) :
  let user_config (path : string) :=
    "using gcc : custom : "
      +:+ (if str_truthy path then path +:+ " " else path)
      +:+ gcc_using_options in
  match Toolchain.detect h gxx temp_file ToolchainType.GCC platform with
  | Ok r =>
      exists path toolset,
        _full_exe_name h "g++" = Ok path /\
        r = (Toolchain.ConfigFile Toolchain.GCC_cls platform
               (temp_file (user_config path)) toolset,
             Some (user_config path))
  | Raise e => _full_exe_name h "g++" = Raise e
  end /\
  (on_linux h = true ->
   exists toolset,
     Toolchain.detect h gxx temp_file ToolchainType.GCC platform
     = Ok (Toolchain.ConfigFile Toolchain.GCC_cls platform
             (temp_file (user_config "g++")) toolset,
           Some (user_config "g++")) /\
     names_gxx_and_suppresses_warnings (user_config "g++") = true) /\
  (forall path,
     str_contains "-Wno-deprecated-declarations" (user_config path) = true /\
     str_contains "-Wno-parentheses" (user_config path) = true) /\
  str_contains "set(CMAKE_CXX_COMPILER g++)"
    (CMakeToolchain.GCC._format (Some Platform.X64)) = true /\
  str_contains "set(CMAKE_CXX_FLAGS -m64)"
    (CMakeToolchain.GCC._format (Some Platform.X64)) = true /\
  str_contains "-Wno-" (CMakeToolchain.GCC._format (Some Platform.X64))
  = false.
Proof.
  intros user_config.
  assert (Hdetect :
    match Toolchain.detect h gxx temp_file ToolchainType.GCC platform with
    | Ok r =>
        exists path toolset,
          _full_exe_name h "g++" = Ok path /\
          r = (Toolchain.ConfigFile Toolchain.GCC_cls platform
                 (temp_file (user_config path)) toolset,
               Some (user_config path))
    | Raise e => _full_exe_name h "g++" = Raise e
    end).
  { unfold Toolchain.detect, Toolchain.setup, Toolchain.get_toolset,
      Toolchain.format_config.
    pose proof (gcc_get_toolset_resolves h platform) as Hts.
    destruct (GCC.get_toolset h platform) as [toolset|e]; simpl.
    - destruct Hts as (path & Hpath & ->).
      exists path. eexists. split; [exact Hpath|].
      unfold GCC.format_config, BoostBuildToolset.format_using, user_config.
      simpl. destruct (str_truthy path); reflexivity.
    - exact Hts. }
  split; [exact Hdetect|].
  split; [|split; [|split; [|split]]]; try (vm_compute; reflexivity).
  - intros Hlinux.
    assert (Hexe : _full_exe_name h "g++" = Ok "g++").
    { unfold _full_exe_name. rewrite Hlinux. reflexivity. }
    destruct (Toolchain.detect h gxx temp_file ToolchainType.GCC platform)
      as [r|e].
    + destruct Hdetect as (path & toolset & Hpath & ->).
      rewrite Hexe in Hpath. injection Hpath as <-.
      exists toolset. split; [reflexivity | vm_compute; reflexivity].
    + rewrite Hexe in Hdetect. discriminate Hdetect.
  - intros path. unfold user_config.
    split; do 2 apply str_contains_app_r; vm_compute; reflexivity.
Qed.

(** On the Linux host the user configuration names g++ and carries both
    suppressions. *)
Lemma gcc_config_files_witness :
  on_linux linux_host = true /\
  exists r config,
    Toolchain.detect linux_host (fun _ => "g++") (fun _ => "user_config.jam")
      ToolchainType.GCC Platform.X64 = Ok r /\
    r.2 = Some config /\
    names_gxx_and_suppresses_warnings config = true.
Proof.
  split; [reflexivity|].
  destruct (proj1 (proj2 (gcc_config_files linux_host (fun _ => "g++")
                            (fun _ => "user_config.jam") Platform.X64))
              eq_refl) as (toolset & Hdetect & Hnames).
  eexists _, _. split; [exact Hdetect|]. split; [reflexivity | exact Hnames].
Defined.

(** *** The AppVeyor adapter *)

Lemma image_of_value_Some (s : string) (i : AppVeyor.Image.t) :
  AppVeyor.Image.of_value s = Some i -> s = AppVeyor.Image.value i.
Proof.
  unfold AppVeyor.Image.of_value, AppVeyor.Image.all.
  cbn [find AppVeyor.Image.value].
  repeat (match goal with
          | |- context [String.eqb ?a ?b] =>
              destruct (String.eqb_spec a b) as [<-|_]
          end);
    intros H; try discriminate H; injection H as <-; reflexivity.
Qed.

Lemma image_of_value_value (i : AppVeyor.Image.t) :
  AppVeyor.Image.of_value (AppVeyor.Image.value i) = Some i.
Proof. destruct i; reflexivity. Qed.

Lemma platform_of_value_Some (s : string) (p : AppVeyor.Platform.t) :
  AppVeyor.Platform.of_value s = Some p -> s = AppVeyor.Platform.str p.
Proof.
  unfold AppVeyor.Platform.of_value, AppVeyor.Platform.all.
  cbn [find AppVeyor.Platform.str].
  repeat (match goal with
          | |- context [String.eqb ?a ?b] =>
              destruct (String.eqb_spec a b) as [<-|_]
          end);
    intros H; try discriminate H; injection H as <-; reflexivity.
Qed.

(** What a successful run of the adapter has read from the environment,
    and the argument vector it hands to [build]. *)
Lemma appveyor_argv_Ok (environ : gmap string string)
    (args : AppVeyor.Args) (argv : list string) :
  AppVeyor.appveyor_argv environ args = Ok argv ->
  exists sentinel configuration src image platform,
    environ !! "APPVEYOR" = Some sentinel /\
    environ !! "CONFIGURATION" = Some configuration /\
    environ !! "APPVEYOR_BUILD_FOLDER" = Some src /\
    environ !! "APPVEYOR_BUILD_WORKER_IMAGE"
      = Some (AppVeyor.Image.value image) /\
    environ !! "PLATFORM" = Some (AppVeyor.Platform.str platform) /\
    argv = ["--build"; AppVeyor._get_build_dir;
            "--configuration"; configuration]
           ++ match AppVeyor.install_dir args with
              | Some d => ["--install"; d]
              | None => []
              end
           ++ ["--"; src;
               "-G"; AppVeyor.Generator.str
                       (AppVeyor.Generator.from_image image);
               "-A"; AppVeyor.Platform.str platform]
           ++ AppVeyor.cmake_args args.
Proof.
  unfold AppVeyor.appveyor_argv, AppVeyor._check_appveyor,
    AppVeyor._get_configuration, AppVeyor._get_src_dir,
    AppVeyor._get_generator, AppVeyor._get_platform, AppVeyor._env,
    AppVeyor._parse_image, AppVeyor._parse_platform.
  destruct (environ !! "APPVEYOR") as [sentinel|]; [|discriminate].
  destruct (environ !! "CONFIGURATION") as [configuration|]; [|discriminate].
  destruct (environ !! "APPVEYOR_BUILD_FOLDER") as [src|]; [|discriminate].
  destruct (environ !! "APPVEYOR_BUILD_WORKER_IMAGE") as [im|]; [|discriminate].
  simpl.
  destruct (AppVeyor.Image.of_value im) as [image|] eqn:Him; [|discriminate].
  apply image_of_value_Some in Him as ->.
  destruct (environ !! "PLATFORM") as [pl|]; [|discriminate].
  simpl.
  destruct (AppVeyor.Platform.of_value pl) as [platform|] eqn:Hpl;
    [|discriminate].
  apply platform_of_value_Some in Hpl as ->.
  simpl. intros H. injection H as <-.
  exists sentinel, configuration, src, image, platform.
  repeat (split; [reflexivity|]).
  destruct (AppVeyor.install_dir args); reflexivity.
Qed.

(** C8: when one of the five required variables is missing from the
    environment, or the worker image is none of the four Visual Studio
    images, [build_appveyor] raises before it calls [build]: the error is
    the one raised while the argument vector is assembled, whatever
    [build] would do.  When it does call [build], the generator and the
    platform it passes are the table's translations of the worker image
    and of the platform read from the environment. *)
Theorem build_appveyor_fails_before_build (environ : gmap string string)
    (build : list string -> result unit) (args : AppVeyor.Args) :
  ((exists name, name ∈ AppVeyor.required /\ environ !! name = None) \/
   (exists s, environ !! "APPVEYOR_BUILD_WORKER_IMAGE" = Some s /\
              s ∉ map AppVeyor.Image.value AppVeyor.Image.all) ->
   exists e,
     AppVeyor.appveyor_argv environ args = Raise e /\
     AppVeyor.build_appveyor environ build args = Raise e) /\
  (forall argv,
     AppVeyor.appveyor_argv environ args = Ok argv ->
     AppVeyor.build_appveyor environ build args = build argv /\
     exists image platform,
       environ !! "APPVEYOR_BUILD_WORKER_IMAGE"
         = Some (AppVeyor.Image.value image) /\
       environ !! "PLATFORM" = Some (AppVeyor.Platform.str platform) /\
       ["-G"; AppVeyor.Generator.str (AppVeyor.Generator.from_image image);
        "-A"; AppVeyor.Platform.str platform] ++ AppVeyor.cmake_args args
       `suffix_of` argv).
Proof.
  split.
  - intros Hbad. unfold AppVeyor.build_appveyor.
    destruct (AppVeyor.appveyor_argv environ args) as [argv|e] eqn:Hargv;
      [exfalso | exists e; split; reflexivity].
    apply appveyor_argv_Ok in Hargv
      as (sentinel & configuration & src & image & platform
          & H1 & H2 & H3 & H4 & H5 & _).
    destruct Hbad as [(name & Hname & Hnone) | (s & Hs & Hnot)].
    + unfold AppVeyor.required in Hname.
      repeat (apply elem_of_cons in Hname as [-> | Hname]; [congruence|]).
      inversion Hname.
    + rewrite H4 in Hs. injection Hs as <-.
      apply Hnot. apply list_elem_of_fmap. exists image.
      split; [reflexivity|]. destruct image; unfold AppVeyor.Image.all;
        repeat constructor.
  - intros argv Hargv. unfold AppVeyor.build_appveyor. rewrite Hargv.
    split; [reflexivity|].
    apply appveyor_argv_Ok in Hargv
      as (sentinel & configuration & src & image & platform
          & H1 & H2 & H3 & H4 & H5 & ->).
    exists image, platform. split; [exact H4|]. split; [exact H5|].
    exists (["--build"; AppVeyor._get_build_dir;
             "--configuration"; configuration]
            ++ match AppVeyor.install_dir args with
               | Some d => ["--install"; d]
               | None => []
               end ++ ["--"; src]).
    rewrite <- !app_assoc. reflexivity.
Qed.

(** With every variable set and an image that is not a Visual Studio
    one, the adapter raises and [build] is not called. *)
Lemma build_appveyor_fails_before_build_witness :
  let environ : gmap string string :=
    <["APPVEYOR" := "True"]>
      (<["CONFIGURATION" := "Debug"]>
         (<["APPVEYOR_BUILD_FOLDER" := "C:\projects\app"]>
            (<["APPVEYOR_BUILD_WORKER_IMAGE" := "Ubuntu"]>
               (<["PLATFORM" := "x64"]> ∅)))) in
  let args := {| AppVeyor.install_dir := None; AppVeyor.cmake_args := [] |} in
  (exists s, environ !! "APPVEYOR_BUILD_WORKER_IMAGE" = Some s /\
             s ∉ map AppVeyor.Image.value AppVeyor.Image.all) /\
  exists e,
    AppVeyor.appveyor_argv environ args = Raise e /\
    AppVeyor.build_appveyor environ (fun _ => Ok tt) args = Raise e.
Proof.
  intros environ args.
  assert (Himage : exists s,
             environ !! "APPVEYOR_BUILD_WORKER_IMAGE" = Some s /\
             s ∉ map AppVeyor.Image.value AppVeyor.Image.all).
  { exists "Ubuntu". split; [reflexivity|].
    intros Hin. simpl in Hin.
    repeat (apply elem_of_cons in Hin as [Heq | Hin]; [discriminate Heq|]).
    inversion Hin. }
  split; [exact Himage|].
  exact (proj1 (build_appveyor_fails_before_build environ (fun _ => Ok tt) args)
           (or_intror Himage)).
Defined.

(** *** The Boost CI adapter *)

(** The call of [BuildParameters] in [build_ci] never binds: [toolset] is
    no parameter of [__init__]. *)
Lemma construct_params_raises (h : Host) (boost_dir : string)
    (platform : Platform.t) (configuration : Configuration.t)
    (args : CIBoost.Args) :
  CIBoost.construct_params h boost_dir platform configuration args
  = Raise (TypeError
             "__init__() got an unexpected keyword argument 'toolset'").
Proof. reflexivity. Qed.

(** C9: a call of [build_ci] that gets as far as the construction of the
    build parameters raises the [TypeError] of an unexpected keyword
    argument [toolset]; hence no call of [build_ci] returns normally, and
    none reaches [build]: the outcome is the same whatever [build] would
    do. *)
Theorem build_ci_unexpected_keyword (h : Host)
    (download : string -> string -> string -> result unit)
    (build : BuildParameters.t -> result unit)
    (dirs : CIBoost.Dirs) (args : CIBoost.Args) :
  (CIBoost.reaches_construction download dirs ->
   CIBoost.build_ci h download build dirs args
   = Raise (TypeError
              "__init__() got an unexpected keyword argument 'toolset'")) /\
  raises (CIBoost.build_ci h download build dirs args) /\
  (forall build',
     CIBoost.build_ci h download build' dirs args
     = CIBoost.build_ci h download build dirs args).
Proof.
  unfold CIBoost.build_ci, CIBoost.reaches_construction.
  split; [|split].
  - intros (version & build_dir & boost_dir & platform & configuration
            & -> & -> & -> & Hd & -> & ->).
    simpl. rewrite Hd. reflexivity.
  - destruct (CIBoost.get_boost_version dirs) as [version|]; simpl; [|exact I].
    destruct (CIBoost.get_build_dir dirs) as [build_dir|]; simpl; [|exact I].
    destruct (CIBoost.get_boost_dir dirs) as [boost_dir|]; simpl; [|exact I].
    destruct (download version build_dir boost_dir) as [[]|]; simpl; [|exact I].
    destruct (CIBoost.get_platform dirs) as [platform|]; simpl; [|exact I].
    destruct (CIBoost.get_configuration dirs) as [configuration|]; simpl;
      [|exact I].
    exact I.
  - intros build'.
    destruct (CIBoost.get_boost_version dirs) as [version|]; simpl;
      [|reflexivity].
    destruct (CIBoost.get_build_dir dirs) as [build_dir|]; simpl;
      [|reflexivity].
    destruct (CIBoost.get_boost_dir dirs) as [boost_dir|]; simpl;
      [|reflexivity].
    destruct (download version build_dir boost_dir) as [[]|]; simpl;
      [|reflexivity].
    destruct (CIBoost.get_platform dirs) as [platform|]; simpl;
      [|reflexivity].
    destruct (CIBoost.get_configuration dirs) as [configuration|]; simpl;
      [|reflexivity].
    reflexivity.
Qed.

(** A run whose download succeeds. *)
Lemma build_ci_unexpected_keyword_witness :
  let dirs := {| CIBoost.get_boost_version := Ok "1.71.0";
                 CIBoost.get_build_dir := Ok "/home/ci";
                 CIBoost.get_boost_dir := Ok "/home/ci/boost";
                 CIBoost.get_platform := Ok Platform.X64;
                 CIBoost.get_configuration := Ok Configuration.DEBUG |} in
  let args := {| CIBoost.link := None; CIBoost.runtime_link := None;
                 CIBoost.toolset := None; CIBoost.b2_args := [] |} in
  CIBoost.reaches_construction (fun _ _ _ => Ok tt) dirs /\
  CIBoost.build_ci linux_host (fun _ _ _ => Ok tt) (fun _ => Ok tt) dirs args
  = Raise (TypeError
             "__init__() got an unexpected keyword argument 'toolset'").
Proof.
  intros dirs args.
  assert (Hreach : CIBoost.reaches_construction (fun _ _ _ => Ok tt) dirs).
  { exists "1.71.0", "/home/ci", "/home/ci/boost", Platform.X64,
      Configuration.DEBUG. repeat split. }
  split; [exact Hreach|].
  exact (proj1 (build_ci_unexpected_keyword linux_host (fun _ _ _ => Ok tt)
                  (fun _ => Ok tt) dirs args) Hreach).
Defined.

(** *** Witnesses of the linkage and staging-directory theorems *)

(** On Linux the default parameters resolve both library linkages to a
    shared runtime. *)
Lemma linkage_options_legal_witness :
  forces_shared linux_host default_params Linkage.STATIC /\
  forall pair,
    _linkage_options linux_host default_params !! 0 = Some pair ->
    pair.1 = Linkage.STATIC /\ pair.2 = Linkage.SHARED.
Proof.
  assert (Hforced : forces_shared linux_host default_params Linkage.STATIC)
    by (split; [reflexivity | right; reflexivity]).
  split; [exact Hforced|].
  intros pair Hpair.
  destruct (Forall2_lookup_lr _ _ _ 0 Linkage.STATIC pair
              (linkage_options_legal linux_host default_params)
              eq_refl Hpair) as (Hfst & Hshared & _).
  split; [exact Hfst | exact (Hshared Hforced)].
Defined.

(** Two combinations that differ in the linkage alone share their
    staging directory. *)
Lemma stagedir_keyed_witness :
  stagedir_flag (_build_params linux_host default_params "build"
                   Platform.X86 Configuration.DEBUG
                   Linkage.STATIC Linkage.SHARED)
  = stagedir_flag (_build_params linux_host default_params "build"
                     Platform.X86 Configuration.DEBUG
                     Linkage.SHARED Linkage.SHARED).
Proof.
  apply (stagedir_keyed_by_platform_configuration linux_host "boost" None None
           None None None None "build").
  split; reflexivity.
Defined.

(** ** Further properties of the build parameters *)

(** X1: The staging directory of a platform and a configuration is
    [stage/<platform>/<configuration>], with the separator of the host. *)
Theorem stagedir_layout (h : Host) (boost_dir : string)
    (build_dir : option string) (platforms : option (list Platform.t))
    (configurations : option (list Configuration.t))
    (link : option (list Linkage.t)) (runtime_link : option Linkage.t)
    (b2_args : option (list string))
    (p : Platform.t) (c : Configuration.t) :
  _stagedir h
    (__init__ h boost_dir build_dir platforms configurations link
       runtime_link b2_args) p c
  = "--stagedir=stage" +:+ sep h +:+ Platform.str p +:+ sep h
      +:+ Configuration.str c.
Proof.
  unfold _stagedir, __init__, path_join, join2, sep. simpl stage_dir.
  destruct (on_windows h), p, c; vm_compute; reflexivity.
Qed.

Lemma linkage_options_fst (h : Host) (self : BuildParameters.t) :
  map fst (_linkage_options h self) = link self.
Proof.
  unfold _linkage_options. rewrite map_map. simpl. apply map_id.
Qed.

(** The argument list tells the platform, the configuration and the
    library linkage it was built for. *)
Lemma build_params_inj (h : Host) (self : BuildParameters.t) (dir : string)
    (p p' : Platform.t) (c c' : Configuration.t) (lk rl lk' rl' : Linkage.t) :
  _build_params h self dir p c lk rl = _build_params h self dir p' c' lk' rl' ->
  p = p' /\ c = c' /\ lk = lk' /\ rl = rl'.
Proof.
  rewrite !build_params_shape. intros Heq.
  apply app_inv_tail in Heq.
  injection Heq as _ Hlk Hrl Hp Hc.
  repeat split.
  - destruct p, p'; try reflexivity; discriminate Hp.
  - destruct c, c'; try reflexivity; discriminate Hc.
  - destruct lk, lk'; try reflexivity; discriminate Hlk.
  - destruct rl, rl'; try reflexivity; discriminate Hrl.
Qed.

(** X2: When no platform, configuration or library linkage is requested
    twice, no argument list is yielded twice. *)
Theorem enum_b2_args_no_duplicates (h : Host) (self : BuildParameters.t)
    (dir : string) :
  NoDup (platforms self) -> NoDup (configurations self) ->
  NoDup (link self) ->
  NoDup (enum_b2_args_in h self dir).
Proof.
  intros Hp Hc Hl.
  assert (Hopts : NoDup (_linkage_options h self)).
  { apply (NoDup_fmap_1 fst). rewrite <- (linkage_options_fst h self) in Hl.
    exact Hl. }
  unfold enum_b2_args_in.
  apply NoDup_bind; [| |exact Hp].
  - intros p p' args _ _ Hin Hin'.
    apply list_elem_of_bind in Hin as (c & Hin & _).
    apply list_elem_of_bind in Hin' as (c' & Hin' & _).
    rewrite inner_loop_map in Hin, Hin'.
    apply list_elem_of_fmap in Hin as ([lk rl] & -> & _).
    apply list_elem_of_fmap in Hin' as ([lk' rl'] & Heq & _).
    apply build_params_inj in Heq. tauto.
  - intros p _. apply NoDup_bind; [| |exact Hc].
    + intros c c' args _ _ Hin Hin'.
      rewrite inner_loop_map in Hin, Hin'.
      apply list_elem_of_fmap in Hin as ([lk rl] & -> & _).
      apply list_elem_of_fmap in Hin' as ([lk' rl'] & Heq & _).
      apply build_params_inj in Heq. tauto.
    + intros c _. rewrite inner_loop_map.
      apply NoDup_fmap_2_strong; [|exact Hopts].
      intros [lk rl] [lk' rl'] _ _ Heq.
      apply build_params_inj in Heq. simpl in Heq.
      destruct Heq as (_ & _ & -> & ->). reflexivity.
Qed.

(** The eight argument lists of the default parameters are distinct. *)
Lemma enum_b2_args_no_duplicates_witness :
  NoDup (enum_b2_args_in linux_host default_params "build").
Proof.
  apply (enum_b2_args_no_duplicates linux_host default_params "build").
  - apply NoDup_cons. split; [|apply NoDup_singleton].
    intros Hin. apply list_elem_of_singleton in Hin. discriminate Hin.
  - apply NoDup_cons. split; [|apply NoDup_singleton].
    intros Hin. apply list_elem_of_singleton in Hin. discriminate Hin.
  - apply NoDup_cons. split; [|apply NoDup_singleton].
    intros Hin. apply list_elem_of_singleton in Hin. discriminate Hin.
Defined.

(** X3: In every argument list of the expansion the runtime is linked
    statically only off Linux, for a static library and when the static
    runtime was requested; in particular a shared library never comes
    with a static runtime. *)
Theorem static_runtime_only_for_static_libraries (h : Host)
    (self : BuildParameters.t) (dir : string) (args : list string) :
  args ∈ enum_b2_args_in h self dir ->
  (args !! 3 = Some "runtime-link=static" \/
   args !! 3 = Some "runtime-link=shared") /\
  (args !! 3 = Some "runtime-link=static" <->
   on_linux h = false /\ runtime_link self = Linkage.STATIC /\
   args !! 2 = Some "link=static").
Proof.
  intros Hin.
  apply enum_b2_args_in_member in Hin
    as (p & c & lk & rl & _ & _ & Hl & ->).
  unfold _linkage_options in Hl.
  apply list_elem_of_fmap in Hl as (lk0 & Heq & _).
  injection Heq as -> ->.
  rewrite build_params_shape. simpl.
  destruct (runtime_link self), lk0, (on_linux h); simpl;
    (split; [auto|]); split;
    first [ intros H; discriminate H
          | intros (H1 & H2 & H3); discriminate
          | intros _; repeat split; reflexivity
          | reflexivity ].
Qed.

(** The shared build of the default parameters on Linux links the
    runtime dynamically. *)
Lemma static_runtime_only_for_static_libraries_witness :
  let args := _build_params linux_host default_params "build"
                Platform.X86 Configuration.DEBUG
                Linkage.SHARED Linkage.SHARED in
  args ∈ enum_b2_args_in linux_host default_params "build" /\
  (args !! 3 = Some "runtime-link=static" \/
   args !! 3 = Some "runtime-link=shared").
Proof.
  intros args.
  assert (Hin : args ∈ enum_b2_args_in linux_host default_params "build").
  { apply list_elem_of_In. vm_compute. tauto. }
  split; [exact Hin|].
  exact (proj1 (static_runtime_only_for_static_libraries linux_host
                  default_params "build" args Hin)).
Defined.

(** *** The generator, whatever its caller does *)

Lemma gen_step_in_order (h : Host) (self : BuildParameters.t)
    (fs0 : gset string) (c : gen_config) (e : gen_event)
    (ys : list (list string)) :
  in_order h self fs0 c ys ->
  in_order h self fs0 (gen_step h self c e).1
    (ys ++ yielded [(gen_step h self c e).2]).
Proof.
  unfold in_order, gen_step, expansion_from.
  destruct (st c) as [|tmp [|args pending]|] eqn:Hst, e; simpl.
  - intros [-> ->].
    destruct (_create_build_dir_enter h self fs0) as [[[dir tmp] fs1]|err];
      simpl.
    + destruct (enum_b2_args_in h self dir) as [|args pending]; simpl.
      * apply prefix_nil.
      * reflexivity.
    + apply prefix_nil.
  - intros [_ ->]. apply prefix_nil.
  - intros <-. rewrite !app_nil_r. reflexivity.
  - intros <-. rewrite !app_nil_r. reflexivity.
  - intros <-. rewrite <- app_assoc. reflexivity.
  - intros <-. rewrite app_nil_r. apply prefix_app_r. reflexivity.
  - rewrite Hst, app_nil_r. auto.
  - rewrite Hst, app_nil_r. auto.
Qed.

Lemma yielded_cons (o : gen_outcome) (os : list gen_outcome) :
  yielded (o :: os) = yielded [o] ++ yielded os.
Proof. destruct o; reflexivity. Qed.

Lemma gen_run_in_order (h : Host) (self : BuildParameters.t)
    (fs0 : gset string) (es : list gen_event) (c : gen_config)
    (ys : list (list string)) :
  in_order h self fs0 c ys ->
  in_order h self fs0 (gen_run h self c es).1
    (ys ++ yielded (gen_run h self c es).2).
Proof.
  revert c ys. induction es as [|e es IH]; intros c ys Hc.
  - simpl. rewrite app_nil_r. exact Hc.
  - rewrite gen_run_cons. cbn [fst snd].
    rewrite yielded_cons, app_assoc. apply IH, gen_step_in_order, Hc.
Qed.

(** X4: Whatever the caller does with the generator, the argument lists it
    has received so far are an initial segment of the expansion: they
    come in the order of the expansion, none is left out and none comes
    twice. *)
Theorem yielded_initial_segment (h : Host) (self : BuildParameters.t)
    (fs0 : gset string) (es : list gen_event) :
  yielded (gen_run h self (gen_init fs0) es).2
    `prefix_of` expansion_from h self fs0.
Proof.
  assert (Hinit : in_order h self fs0 (gen_init fs0) []) by (split; reflexivity).
  pose proof (gen_run_in_order h self fs0 es (gen_init fs0) [] Hinit) as Hrun.
  simpl in Hrun. unfold in_order in Hrun.
  destruct (st (gen_run h self (gen_init fs0) es).1) as [|tmp pending|].
  - destruct Hrun as [_ ->]. apply prefix_nil.
  - rewrite <- Hrun. apply prefix_app_r. reflexivity.
  - exact Hrun.
Qed.

Section TemporaryBuildDir.
Variable h : Host.
Variable self : BuildParameters.t.
Variable fs0 : gset string.
Variable tmp : string.
Hypothesis temporary : build_dir self = None.
Hypothesis made_tmp : mkdtemp h (dirname h (boost_dir self)) fs0 = Ok tmp.


End TemporaryBuildDir.



(** ** Further properties of the Boost toolchains *)

(** X6: The arguments of the two bootstrap scripts.  [bootstrap.bat] gets
    [gcc] or nothing: [gcc] for hint gcc, and for hints mingw, clang and
    clang-cl when a [gcc] is on the search path.  [bootstrap.sh] gets the
    GCC toolset for hint gcc, the Clang toolset for hints clang and
    clang-cl, and nothing otherwise, whatever the host. *)
Theorem bootstrap_args_by_hint (h : Host) (hint : ToolchainType.t) :
  let toolchain := BootstrapToolchain.detect hint in
  let bat := BootstrapToolchain.get_bootstrap_bat_args h toolchain in
  let sh := BootstrapToolchain.get_bootstrap_sh_args toolchain in
  (bat = ["gcc"] \/ bat = []) /\
  (bat = ["gcc"] <->
   hint = ToolchainType.GCC \/
   ((hint = ToolchainType.MINGW \/ hint = ToolchainType.CLANG \/
     hint = ToolchainType.CLANG_CL) /\ which h "gcc" None <> None)) /\
  (sh = ["--with-toolset=gcc"] <-> hint = ToolchainType.GCC) /\
  (sh = ["--with-toolset=clang"] <->
   hint = ToolchainType.CLANG \/ hint = ToolchainType.CLANG_CL) /\
  (sh = [] <->
   hint = ToolchainType.AUTO \/ hint = ToolchainType.MSVC \/
   hint = ToolchainType.MINGW).
Proof.
  intros toolchain bat sh. subst toolchain bat sh.
  unfold BootstrapToolchain.get_bootstrap_bat_args,
    BootstrapToolchain._gcc_or_auto.
  destruct hint; simpl; destruct (which h "gcc" None);
    repeat split; intuition (try discriminate; try congruence).
Qed.


(** X7: The constructor of a toolset raises when the compiler type is empty,
    before anything else.  Otherwise a missing or empty path stays empty
    and nothing is looked up, while another path is resolved through
    [_full_exe_name], whose error comes through.  A toolset that was
    constructed has the version [custom], so that b2 is told
    [toolset=<compiler>-custom]. *)
Theorem toolset_init_behaviour (h : Host) (c : string) (p : option string)
    (opts : option (list (string * string))) :
  let r := BoostBuildToolset.__init__ h c p opts in
  let made (exe : string) :=
    {| BoostBuildToolset.compiler := c;
       BoostBuildToolset.version := "custom";
       BoostBuildToolset.path := exe;
       BoostBuildToolset.options := list_or opts [] |} in
  (c = "" ->
   r = Raise (RuntimeError
                "compiler type is required (like gcc, clang, etc.)")) /\
  (c <> "" -> p = None \/ p = Some "" -> r = Ok (made "")) /\
  (c <> "" -> forall exe, p = Some exe -> exe <> "" ->
   r = match _full_exe_name h exe with
       | Ok found => Ok (made found)
       | Raise e => Raise e
       end) /\
  (forall ts, r = Ok ts ->
   BoostBuildToolset.toolset ts = c +:+ "-custom" /\
   BoostBuildToolset.b2_args ts = ["toolset=" +:+ c +:+ "-custom"]).
Proof.
  intros r made. subst r made. unfold BoostBuildToolset.__init__.
  destruct c as [|a c]; simpl.
  - split; [reflexivity|]. split; [congruence|]. split; [congruence|].
    intros ts H; discriminate H.
  - split; [discriminate|]. split; [|split].
    + intros _ [-> | ->]; reflexivity.
    + intros _ exe -> Hne. destruct exe as [|b exe]; [congruence|].
      simpl. destruct (_full_exe_name h (String b exe)); reflexivity.
    + intros ts Hts.
      assert (Hshape : BoostBuildToolset.compiler ts = String a c /\
                       BoostBuildToolset.version ts = "custom").
      { destruct p as [[|b exe]|]; simpl in Hts;
          try (injection Hts as <-; split; reflexivity).
        destruct (_full_exe_name h (String b exe)); simpl in Hts;
          [injection Hts as <-; split; reflexivity | discriminate Hts]. }
      destruct Hshape as [Hc Hv].
      unfold BoostBuildToolset.b2_args, BoostBuildToolset.b2_toolset,
        BoostBuildToolset.toolset.
      rewrite Hc, Hv. split; reflexivity.
Qed.

(** An empty compiler type is refused, and [g++] resolves to itself on
    Linux. *)
Lemma toolset_init_behaviour_witness :
  BoostBuildToolset.__init__ linux_host "" (Some "g++") None
  = Raise (RuntimeError "compiler type is required (like gcc, clang, etc.)")
  /\
  BoostBuildToolset.toolset
    {| BoostBuildToolset.compiler := "gcc";
       BoostBuildToolset.version := "custom";
       BoostBuildToolset.path := "g++";
       BoostBuildToolset.options := [] |} = "gcc-custom".
Proof.
  split.
  - exact (proj1 (toolset_init_behaviour linux_host "" (Some "g++") None)
             eq_refl).
  - exact (proj1 (proj2 (proj2 (proj2
             (toolset_init_behaviour linux_host "gcc" (Some "g++") None)))
             _ eq_refl)).
Defined.

(** *** The user configuration and the command line *)

Lemma str_contains_prefix (n s : string) :
  String.prefix n s = true -> str_contains n s = true.
Proof. destruct s; simpl; intros ->; reflexivity. Qed.

Lemma str_contains_self_app (n b : string) : str_contains n (n +:+ b) = true.
Proof. apply str_contains_prefix, prefix_append. Qed.

(** The rule of a toolset of version [custom] starts with its compiler
    type and its version. *)
Lemma format_using_head (ts : BoostBuildToolset.t) :
  BoostBuildToolset.version ts = "custom" ->
  exists rest,
    BoostBuildToolset.format_using ts
    = "using " +:+ BoostBuildToolset.compiler ts +:+ " : custom : " +:+ rest.
Proof.
  intros Hv. unfold BoostBuildToolset.format_using. rewrite Hv.
  eexists. simpl. reflexivity.
Qed.

(** X8: For the hints that write a user configuration (gcc, mingw and
    clang), the toolset that the command line selects is the one that
    the configuration defines: b2 gets, after the flags of the platform,
    the path of the file that holds the configuration and
    [toolset=<compiler>-custom], and the configuration has the rule
    [using <compiler> : custom].  The flags of the platform are taken to
    be a list of their own. *)
Theorem user_config_defines_the_toolset (h : Host)
    (platform_b2_args : Platform.t -> Configuration.t -> list string)
    (gxx : Platform.t -> string) (temp_file : string -> string)
    (hint : ToolchainType.t) (platform : Platform.t)
    (configuration : Configuration.t)
    (toolchain : Toolchain.t) (config : string) :
  Toolchain.detect h gxx temp_file hint platform = Ok (toolchain, Some config) ->
  exists compiler,
    ((hint = ToolchainType.GCC \/ hint = ToolchainType.MINGW) /\
     compiler = "gcc" \/
     hint = ToolchainType.CLANG /\ compiler = "clang") /\
    Toolchain.b2_args platform_b2_args toolchain configuration
    = platform_b2_args platform configuration
      ++ ["--user-config=" +:+ temp_file config;
          "toolset=" +:+ compiler +:+ "-custom"] /\
    str_contains ("using " +:+ compiler +:+ " : custom : ") config = true.
Proof.
  destruct hint; simpl; try discriminate;
    unfold Toolchain.setup, Toolchain.get_toolset, Toolchain.format_config.
  - unfold GCC.get_toolset, BoostBuildToolset.__init__. simpl.
    destruct (_full_exe_name h "g++") as [path|e]; simpl; [|discriminate].
    intros H. injection H as <- <-. exists "gcc".
    split; [left; split; [left|]; reflexivity|].
    split; [unfold Toolchain.b2_args; rewrite <- app_assoc; reflexivity|].
    unfold GCC.format_config.
    match goal with
    | |- context [BoostBuildToolset.format_using ?ts] =>
        destruct (format_using_head ts eq_refl) as [rest ->]
    end.
    exact (str_contains_self_app "using gcc : custom : " rest).
  - unfold MinGW.get_toolset, BoostBuildToolset.__init__. simpl.
    destruct (gxx platform) as [|a exe]; simpl.
    + intros H. injection H as <- <-. exists "gcc".
      split; [left; split; [right|]; reflexivity|].
      split; [unfold Toolchain.b2_args; rewrite <- app_assoc; reflexivity|].
      vm_compute. reflexivity.
    + destruct (_full_exe_name h (String a exe)) as [path|e]; simpl;
        [|discriminate].
      intros H. injection H as <- <-. exists "gcc".
      split; [left; split; [right|]; reflexivity|].
      split; [unfold Toolchain.b2_args; rewrite <- app_assoc; reflexivity|].
      unfold MinGW.format_config, GCC.format_config.
      match goal with
      | |- context [BoostBuildToolset.format_using ?ts] =>
          destruct (format_using_head ts eq_refl) as [rest ->]
      end.
      exact (str_contains_self_app "using gcc : custom : " rest).
  - destruct (Clang.get_toolset h platform) as [ts|e] eqn:Hts; simpl;
      [|discriminate].
    intros H. injection H as <- <-. exists "clang".
    assert (Hshape : BoostBuildToolset.compiler ts = "clang" /\
                     BoostBuildToolset.version ts = "custom").
    { unfold Clang.get_toolset, BoostBuildToolset.__init__ in Hts.
      simpl in Hts.
      destruct (_full_exe_name h "clang++") as [path|e]; simpl in Hts;
        [|discriminate].
      injection Hts as <-. split; reflexivity. }
    destruct Hshape as [Hc Hv].
    split; [right; split; reflexivity|]. split.
    + unfold Toolchain.b2_args, BoostBuildToolset.b2_args,
        BoostBuildToolset.b2_toolset, BoostBuildToolset.toolset.
      rewrite Hc, Hv, <- app_assoc. reflexivity.
    + unfold Clang.format_config. apply str_contains_app_r.
      apply str_contains_app_l.
      destruct (format_using_head ts Hv) as [rest ->]. rewrite Hc.
      exact (str_contains_self_app "using clang : custom : " rest).
Qed.

(** On Linux, hint gcc. *)
Lemma user_config_defines_the_toolset_witness :
  exists toolchain config,
    Toolchain.detect linux_host (fun _ => "g++") (fun _ => "user_config.jam")
      ToolchainType.GCC Platform.X64 = Ok (toolchain, Some config) /\
    Toolchain.b2_args spec_platform_b2_args toolchain Configuration.DEBUG
    = ["address-model=64"; "--user-config=user_config.jam";
       "toolset=gcc-custom"].
Proof.
  eexists _, _. split; [reflexivity|].
  destruct (user_config_defines_the_toolset linux_host spec_platform_b2_args
              (fun _ => "g++") (fun _ => "user_config.jam")
              ToolchainType.GCC Platform.X64 Configuration.DEBUG _ _ eq_refl)
    as (compiler & Hc & Hargs & _).
  destruct Hc as [[_ ->] | [Hc _]]; [exact Hargs | discriminate Hc].
Defined.

(** *** Failure of the detection, and what the configuration holds *)



(** X10: The options of the Clang toolset are its three flags, then those of
    GCC, then the LLVM archiver and ranlib: each of the two only on
    Windows, and only when it is on the search path. *)
Theorem clang_toolset_options (h : Host) (platform : Platform.t)
    (ts : BoostBuildToolset.t) :
  Clang.get_toolset h platform = Ok ts ->
  exists binutils,
    BoostBuildToolset.options ts
    = [("cxxflags", "-DBOOST_USE_WINDOWS_H");
       ("cxxflags", "-Wno-unused-local-typedef");
       ("cxxflags", "-Wno-c++11-narrowing")]
      ++ GCC.get_options ++ binutils /\
    binutils
    = (if on_windows h && bool_decide (which h "llvm-ar" None <> None)
       then [("archiver", "llvm-ar")] else [])
      ++ (if on_windows h && bool_decide (which h "llvm-ranlib" None <> None)
          then [("ranlib", "llvm-ranlib")] else []).
Proof.
  unfold Clang.get_toolset, BoostBuildToolset.__init__. simpl.
  destruct (_full_exe_name h "clang++") as [path|e]; simpl; [|discriminate].
  destruct (on_windows h); simpl.
  - destruct (which h "llvm-ar" None) as [ar|],
             (which h "llvm-ranlib" None) as [ranlib|];
      intros H; injection H as <-; simpl; eexists; split; reflexivity.
  - intros H. injection H as <-. eexists. split; reflexivity.
Qed.

(** On Linux the Clang toolset has the five compiler flags and no
    binutils. *)
Lemma clang_toolset_options_witness :
  exists ts,
    Clang.get_toolset linux_host Platform.X64 = Ok ts /\
    List.length (BoostBuildToolset.options ts) = 5.
Proof.
  eexists. split; [reflexivity|].
  destruct (clang_toolset_options linux_host Platform.X64 _ eq_refl)
    as (binutils & -> & ->).
  reflexivity.
Defined.



Lemma append_nil_r (s : string) : s +:+ "" = s.
Proof.
  induction s as [|a s IH]; [reflexivity|].
  change (String a (s +:+ "") = String a s). rewrite IH. reflexivity.
Qed.

Lemma concat_empty_cons (s : string) (l : list string) :
  String.concat "" (s :: l) = s +:+ String.concat "" l.
Proof.
  destruct l as [|t l]; simpl; [symmetry; apply append_nil_r | reflexivity].
Qed.

(** What one of the joined strings contains, the whole contains. *)
Lemma str_contains_concat (n s : string) (l : list string) :
  s ∈ l -> str_contains n s = true ->
  str_contains n (String.concat "" l) = true.
Proof.
  intros Hin Hs. induction l as [|t l IH]; [inversion Hin|].
  rewrite concat_empty_cons.
  apply elem_of_cons in Hin as [<- | Hin].
  - apply str_contains_app_l. exact Hs.
  - apply str_contains_app_r. auto.
Qed.

(** X12: Every option of a toolset has a line of its own in the [using] rule,
    [<name>value] behind four spaces, and so in the configuration that
    hints gcc, mingw and clang write. *)
Theorem user_config_lists_every_option (ts : BoostBuildToolset.t)
    (name val : string) :
  (name, val) ∈ BoostBuildToolset.options ts ->
  let line := nl +:+ "    <" +:+ name +:+ ">" +:+ val in
  str_contains line (BoostBuildToolset.format_using ts) = true /\
  str_contains line (GCC.format_config ts) = true /\
  str_contains line (MinGW.format_config ts) = true /\
  str_contains line (Clang.format_config ts) = true.
Proof.
  intros Hin line.
  assert (Hopts : str_contains line (BoostBuildToolset._format_using_options ts)
                  = true).
  { unfold BoostBuildToolset._format_using_options.
    apply (str_contains_concat line line).
    - apply list_elem_of_fmap. exists (name, val). split; [reflexivity|exact Hin].
    - unfold line. apply str_contains_prefix.
      rewrite <- (append_nil_r (nl +:+ "    <" +:+ name +:+ ">" +:+ val)) at 2.
      apply prefix_append. }
  assert (Husing : str_contains line (BoostBuildToolset.format_using ts) = true).
  { unfold BoostBuildToolset.format_using. cbv zeta.
    apply (str_contains_app_r _ "using ").
    apply (str_contains_app_r _ (BoostBuildToolset.compiler ts)).
    apply (str_contains_app_r _ " : ").
    apply str_contains_app_r.
    apply (str_contains_app_r _ ": ").
    apply str_contains_app_r.
    apply (str_contains_app_r _ ":").
    apply str_contains_app_l. exact Hopts. }
  split; [exact Husing|]. split; [exact Husing|]. split; [exact Husing|].
  unfold Clang.format_config.
  apply str_contains_app_r, str_contains_app_l. exact Husing.
Qed.

(** The second warning suppression of GCC. *)
Lemma user_config_lists_every_option_witness :
  ("cxxflags", "-Wno-parentheses") ∈ GCC.get_options /\
  str_contains (nl +:+ "    <cxxflags>-Wno-parentheses")
    (GCC.format_config
       {| BoostBuildToolset.compiler := "gcc";
          BoostBuildToolset.version := "custom";
          BoostBuildToolset.path := "g++";
          BoostBuildToolset.options := GCC.get_options |}) = true.
Proof.
  assert (Hin : ("cxxflags", "-Wno-parentheses") ∈ GCC.get_options).
  { apply list_elem_of_In. simpl. tauto. }
  split; [exact Hin|].
  exact (proj1 (proj2 (user_config_lists_every_option
            {| BoostBuildToolset.compiler := "gcc";
               BoostBuildToolset.version := "custom";
               BoostBuildToolset.path := "g++";
               BoostBuildToolset.options := GCC.get_options |}
            "cxxflags" "-Wno-parentheses" Hin))).
Defined.

(** ** The toolchains of CMake *)

Section CMakeToolchains.
Variable h : Host.
Variable get_cmake_arch : Platform.t -> string.
Variable hint_str : ToolchainType.t -> string.
Variable tools : CMakeDetect.MinGWTools.
Variable write_text : string -> string -> result unit.

(** [setup] succeeds or fails with the writing of the file. *)
Lemma cmake_setup_outcome (cls : CMakeDetect.makefile_class)
    (platform : option Platform.t) (build_dir : string) :
  let path := os_path_join h build_dir "custom_toolchain.cmake" in
  let contents := CMakeDetect._format tools cls platform in
  CMakeDetect.setup h tools write_text cls platform build_dir
  = match write_text path contents with
    | Ok _ => Ok (CMakeDetect.Makefile cls path, Some (path, contents))
    | Raise e => Raise e
    end.
Proof.
  intros path contents. subst path contents.
  unfold CMakeDetect.setup, CMakeDetect.write_config,
    CMakeToolchain.Makefile._get_config_path.
  destruct (write_text _ _); reflexivity.
Qed.

(** The class that [Toolchain.detect] reaches for each hint. *)
Lemma cmake_detect_unfold (hint : ToolchainType.t)
    (platform : option Platform.t) (build_dir : string) :
  CMakeDetect.detect h hint_str tools write_text hint platform build_dir
  = match hint with
    | ToolchainType.MSVC => Ok (CMakeDetect.MSVC platform, None)
    | ToolchainType.AUTO =>
        match platform with
        | None => Ok (CMakeDetect.Auto, None)
        | Some _ =>
            if on_windows h then Ok (CMakeDetect.MSVC platform, None)
            else CMakeDetect.setup h tools write_text CMakeDetect.GCC_cls
                   platform build_dir
        end
    | ToolchainType.GCC =>
        CMakeDetect.setup h tools write_text CMakeDetect.GCC_cls
          platform build_dir
    | ToolchainType.MINGW =>
        CMakeDetect.setup h tools write_text CMakeDetect.MinGW_cls
          platform build_dir
    | ToolchainType.CLANG =>
        CMakeDetect.setup h tools write_text CMakeDetect.Clang_cls
          platform build_dir
    | ToolchainType.CLANG_CL =>
        CMakeDetect.setup h tools write_text CMakeDetect.ClangCL_cls
          platform build_dir
    end.
Proof.
  destruct hint; try reflexivity.
  destruct platform as [p|]; [|reflexivity].
  simpl. destruct (on_windows h); reflexivity.
Qed.
End CMakeToolchains.

(** X13: [Toolchain.detect] of CMake fails exactly when the toolchain file
    cannot be written, and with the error of the writing: for the hints
    gcc, mingw, clang and clang-cl, and for hint auto with a platform
    off Windows, the error of writing the file of the class of the hint
    to [custom_toolchain.cmake] in the build directory.  For hint msvc,
    and for hint auto without a platform or on Windows, nothing is
    written and the detection succeeds.  The final [NotImplementedError]
    of the function is never its own. *)
Theorem cmake_detect_fails_only_on_write (h : Host)
    (hint_str : ToolchainType.t -> string) (tools : CMakeDetect.MinGWTools)
    (write_text : string -> string -> result unit)
    (hint : ToolchainType.t) (platform : option Platform.t)
    (build_dir : string) :
  let detect := CMakeDetect.detect h hint_str tools write_text in
  let path := os_path_join h build_dir "custom_toolchain.cmake" in
  let cls :=
    match hint with
    | ToolchainType.MINGW => CMakeDetect.MinGW_cls
    | ToolchainType.CLANG => CMakeDetect.Clang_cls
    | ToolchainType.CLANG_CL => CMakeDetect.ClangCL_cls
    | _ => CMakeDetect.GCC_cls
    end in
  let writes :=
    hint = ToolchainType.GCC \/ hint = ToolchainType.MINGW \/
    hint = ToolchainType.CLANG \/ hint = ToolchainType.CLANG_CL \/
    hint = ToolchainType.AUTO /\ platform <> None /\ on_windows h = false in
  (hint = ToolchainType.MSVC \/
   hint = ToolchainType.AUTO /\ (platform = None \/ on_windows h = true) ->
   exists toolchain, detect hint platform build_dir = Ok (toolchain, None)) /\
  (forall e,
     detect hint platform build_dir = Raise e <->
     writes /\
     write_text path (CMakeDetect._format tools cls platform) = Raise e) /\
  ((forall contents, write_text path contents = Ok tt) ->
   exists toolchain file,
     detect hint platform build_dir = Ok (toolchain, file)).
Proof.
  intros detect path cls writes. subst detect path cls writes.
  rewrite cmake_detect_unfold. split; [|split].
  - intros [-> | [-> [-> | Hw]]]; [eauto | eauto |].
    destruct platform as [p|]; [rewrite Hw|]; eauto.
  - intros e.
    assert (Hsetup : forall cls,
      CMakeDetect.setup h tools write_text cls platform build_dir = Raise e <->
      write_text (os_path_join h build_dir "custom_toolchain.cmake")
        (CMakeDetect._format tools cls platform) = Raise e).
    { intros cls. rewrite cmake_setup_outcome.
      destruct (write_text _ _) as [[]|e']; split; congruence. }
    destruct hint.
    + destruct platform as [p|]; [destruct (on_windows h) eqn:Hwin|].
      * split; [discriminate|].
        intros [[H|[H|[H|[H|(_ & _ & H)]]]] _]; discriminate.
      * rewrite Hsetup. split; [|intros [_ H]; exact H].
        intros H. split; [|exact H].
        right. right. right. right. repeat split; congruence.
      * split; [discriminate|].
        intros [[H|[H|[H|[H|(_ & H & _)]]]] _]; congruence.
    + split; [discriminate|].
      intros [[H|[H|[H|[H|(H & _)]]]] _]; discriminate.
    + rewrite Hsetup. split; [|intros [_ H]; exact H].
      intros H. split; [left; reflexivity | exact H].
    + rewrite Hsetup. split; [|intros [_ H]; exact H].
      intros H. split; [right; left; reflexivity | exact H].
    + rewrite Hsetup. split; [|intros [_ H]; exact H].
      intros H. split; [right; right; left; reflexivity | exact H].
    + rewrite Hsetup. split; [|intros [_ H]; exact H].
      intros H. split; [right; right; right; left; reflexivity | exact H].
  - intros Hok.
    destruct hint; try destruct platform as [p|];
      try destruct (on_windows h) eqn:Hwin;
      rewrite ?cmake_setup_outcome, ?Hok; eauto.
Qed.

(** On a machine where the build directory is missing, hint clang fails
    with the error of [open]. *)
Lemma cmake_detect_fails_only_on_write_witness :
  let tools := {| CMakeDetect.get_gcc := fun _ => "gcc";
                  CMakeDetect.get_gxx := fun _ => "g++";
                  CMakeDetect.get_ar := fun _ => "ar";
                  CMakeDetect.get_ranlib := fun _ => "ranlib";
                  CMakeDetect.get_windres := fun _ => "windres" |} in
  let missing (path contents : string) : result unit :=
    Raise (OtherError "No such file or directory") in
  CMakeDetect.detect linux_host (fun _ => "clang") tools missing
    ToolchainType.CLANG (Some Platform.X64) "build"
  = Raise (OtherError "No such file or directory").
Proof.
  intros tools missing.
  apply (proj2 (proj1 (proj2 (cmake_detect_fails_only_on_write linux_host
                                (fun _ => "clang") tools missing
                                ToolchainType.CLANG (Some Platform.X64)
                                "build"))
                  (OtherError "No such file or directory"))).
  split; [right; right; left; reflexivity | reflexivity].
Defined.

(** X14: When [Toolchain.detect] writes a toolchain file, it writes it to
    [custom_toolchain.cmake] in the build directory, and the toolchain it
    returns hands CMake that very path, with a Makefile generator, and has
    no build argument.  It writes none for hint msvc, and for hint auto
    without a platform or on Windows; the toolchain is then the one that
    adds nothing, or the one of MSVC, which passes the architecture of
    the platform, if there is one, and builds with [/m]. *)
Theorem cmake_toolchain_file_is_passed (h : Host)
    (get_cmake_arch : Platform.t -> string)
    (hint_str : ToolchainType.t -> string) (tools : CMakeDetect.MinGWTools)
    (write_text : string -> string -> result unit)
    (hint : ToolchainType.t) (platform : option Platform.t)
    (build_dir : string) (toolchain : CMakeDetect.t)
    (file : option (string * string)) :
  CMakeDetect.detect h hint_str tools write_text hint platform build_dir
  = Ok (toolchain, file) ->
  match file with
  | Some (path, contents) =>
      path = os_path_join h build_dir "custom_toolchain.cmake" /\
      write_text path contents = Ok tt /\
      exists cls,
        toolchain = CMakeDetect.Makefile cls path /\
        contents = CMakeDetect._format tools cls platform /\
        CMakeDetect.get_cmake_args h get_cmake_arch toolchain
        = ["-D"; "CMAKE_TOOLCHAIN_FILE=" +:+ path;
           "-G"; CMakeDetect._get_makefile_generator h cls] /\
        CMakeDetect.get_build_args toolchain = []
  | None =>
      toolchain = CMakeDetect.Auto /\
      CMakeDetect.get_cmake_args h get_cmake_arch toolchain = [] /\
      CMakeDetect.get_build_args toolchain = [] \/
      toolchain = CMakeDetect.MSVC platform /\
      CMakeDetect.get_cmake_args h get_cmake_arch toolchain
      = match platform with
        | Some p => ["-A"; get_cmake_arch p]
        | None => []
        end /\
      CMakeDetect.get_build_args toolchain = ["/m"]
  end /\
  (file = None <->
   hint = ToolchainType.MSVC \/
   hint = ToolchainType.AUTO /\ (platform = None \/ on_windows h = true)).
Proof.
  assert (Hfile : forall cls,
    CMakeDetect.setup h tools write_text cls platform build_dir
    = Ok (toolchain, file) ->
    match file with
    | Some (path, contents) =>
        path = os_path_join h build_dir "custom_toolchain.cmake" /\
        write_text path contents = Ok tt /\
        exists cls,
          toolchain = CMakeDetect.Makefile cls path /\
          contents = CMakeDetect._format tools cls platform /\
          CMakeDetect.get_cmake_args h get_cmake_arch toolchain
          = ["-D"; "CMAKE_TOOLCHAIN_FILE=" +:+ path;
             "-G"; CMakeDetect._get_makefile_generator h cls] /\
          CMakeDetect.get_build_args toolchain = []
    | None => False
    end).
  { intros cls. rewrite cmake_setup_outcome.
    destruct (write_text _ _) as [[]|e] eqn:Hwrite; [|discriminate].
    intros H. injection H as <- <-.
    split; [reflexivity|]. split; [exact Hwrite|].
    exists cls. repeat split. }
  assert (Hmsvc : forall p : option Platform.t,
    CMakeDetect.get_cmake_args h get_cmake_arch (CMakeDetect.MSVC p)
    = match p with Some p => ["-A"; get_cmake_arch p] | None => [] end).
  { intros [p|]; reflexivity. }
  rewrite cmake_detect_unfold.
  destruct hint.
  - (* auto *)
    destruct platform as [p|].
    + destruct (on_windows h) eqn:Hwin.
      * intros H. injection H as <- <-.
        split; [right; repeat split|].
        split; [intros _; right; split; [reflexivity|right; reflexivity]
               | reflexivity].
      * intros H.
        pose proof (Hfile CMakeDetect.GCC_cls H) as Hm.
        destruct file as [[path contents]|]; [|contradiction].
        split; [exact Hm|].
        split; [discriminate|].
        intros [Hh | [_ [Hp | Hw]]]; discriminate.
    + intros H. injection H as <- <-.
      split; [left; repeat split|].
      split; [intros _; right; split; [reflexivity|left; reflexivity]
             | reflexivity].
  - (* msvc *)
    intros H. injection H as <- <-.
    split; [right; split; [reflexivity|split; [apply Hmsvc|reflexivity]]|].
    split; [intros _; left; reflexivity | reflexivity].
  - intros H.
    pose proof (Hfile CMakeDetect.GCC_cls H) as Hm.
    destruct file as [[path contents]|]; [|contradiction].
    split; [exact Hm|]. split; [discriminate|].
    intros [Hh | [Hh _]]; discriminate.
  - intros H.
    pose proof (Hfile CMakeDetect.MinGW_cls H) as Hm.
    destruct file as [[path contents]|]; [|contradiction].
    split; [exact Hm|]. split; [discriminate|].
    intros [Hh | [Hh _]]; discriminate.
  - intros H.
    pose proof (Hfile CMakeDetect.Clang_cls H) as Hm.
    destruct file as [[path contents]|]; [|contradiction].
    split; [exact Hm|]. split; [discriminate|].
    intros [Hh | [Hh _]]; discriminate.
  - intros H.
    pose proof (Hfile CMakeDetect.ClangCL_cls H) as Hm.
    destruct file as [[path contents]|]; [|contradiction].
    split; [exact Hm|]. split; [discriminate|].
    intros [Hh | [Hh _]]; discriminate.
Qed.

(** Hint clang for platform x64 on Linux: the file goes to the build
    directory. *)
Lemma cmake_toolchain_file_is_passed_witness :
  let tools := {| CMakeDetect.get_gcc := fun _ => "gcc";
                  CMakeDetect.get_gxx := fun _ => "g++";
                  CMakeDetect.get_ar := fun _ => "ar";
                  CMakeDetect.get_ranlib := fun _ => "ranlib";
                  CMakeDetect.get_windres := fun _ => "windres" |} in
  let written (path contents : string) : result unit := Ok tt in
  exists toolchain contents,
    CMakeDetect.detect linux_host (fun _ => "clang") tools written
      ToolchainType.CLANG (Some Platform.X64) "build"
    = Ok (toolchain, Some ("build/custom_toolchain.cmake", contents)) /\
    CMakeDetect.get_cmake_args linux_host Platform.str toolchain
    = ["-D"; "CMAKE_TOOLCHAIN_FILE=build/custom_toolchain.cmake";
       "-G"; "Unix Makefiles"].
Proof.
  intros tools written. eexists _, _. split; [reflexivity|].
  destruct (proj1 (cmake_toolchain_file_is_passed linux_host Platform.str
                     (fun _ => "clang") tools written ToolchainType.CLANG
                     (Some Platform.X64) "build" _ _ eq_refl))
    as (_ & _ & cls & Htc & _ & Hargs & _).
  injection Htc as <-. exact Hargs.
Defined.

(** X15: The Makefile generator.  Off Windows it is the one of Unix, for
    every class.  On Windows the toolchains of Clang and clang-cl take
    NMake when [nmake] is on the search path; otherwise, and for GCC and
    MinGW always, it is the generator of MinGW when [mingw32-make] is on
    the search path, and the one of Unix when it is not. *)
Theorem makefile_generator_choice (h : Host)
    (cls : CMakeDetect.makefile_class) :
  let g := CMakeDetect._get_makefile_generator h cls in
  let clang := cls = CMakeDetect.Clang_cls \/ cls = CMakeDetect.ClangCL_cls in
  (g = "NMake Makefiles" \/ g = "MinGW Makefiles" \/ g = "Unix Makefiles") /\
  (on_windows h = false -> g = "Unix Makefiles") /\
  (g = "NMake Makefiles" <->
   clang /\ on_windows h = true /\ CMakeDetect.found h "nmake" = true) /\
  (g = "MinGW Makefiles" <->
   on_windows h = true /\ CMakeDetect.found h "mingw32-make" = true /\
   ~ (clang /\ CMakeDetect.found h "nmake" = true)).
Proof.
  intros g clang. subst g clang.
  unfold CMakeDetect._get_makefile_generator,
    CMakeDetect.Clang_get_makefile_generator,
    CMakeDetect.Makefile._get_makefile_generator.
  destruct cls, (on_windows h), (CMakeDetect.found h "nmake"),
    (CMakeDetect.found h "mingw32-make"); cbv iota;
    (split; [auto|]); (split; [first [reflexivity | discriminate]|]);
    split; (split; [try discriminate | ]);
    intuition (try discriminate; try congruence).
Qed.

(** On the Windows host, where every tool is found, Clang builds with
    NMake. *)
Lemma makefile_generator_choice_witness :
  on_windows windows_host = true /\
  CMakeDetect._get_makefile_generator windows_host CMakeDetect.Clang_cls
  = "NMake Makefiles".
Proof.
  split; [reflexivity|].
  apply (proj2 (proj1 (proj2 (proj2
           (makefile_generator_choice windows_host CMakeDetect.Clang_cls))))).
  split; [left; reflexivity | split; reflexivity].
Defined.

(** X16: The platform in the toolchain file.  The files of GCC, Clang and
    clang-cl for a platform are the file without a platform followed by
    the two lines that set [-m32] or [-m64] for C and for C++; without a
    platform they set no flag.  The file of MinGW without a platform is
    the one for x64. *)
Theorem toolchain_file_platform_flags (tools : CMakeDetect.MinGWTools)
    (cls : CMakeDetect.makefile_class) (p : Platform.t) :
  match cls with
  | CMakeDetect.MinGW_cls =>
      CMakeDetect._format tools cls None
      = CMakeDetect._format tools cls (Some Platform.X64)
  | _ =>
      CMakeDetect._format tools cls (Some p)
      = CMakeDetect._format tools cls None +:+ nl +:+
        "set(CMAKE_C_FLAGS   -m" +:+ Platform.get_address_model p +:+ ")"
          +:+ nl +:+
        "set(CMAKE_CXX_FLAGS -m" +:+ Platform.get_address_model p +:+ ")"
          +:+ nl /\
      str_contains "_FLAGS" (CMakeDetect._format tools cls None) = false
  end.
Proof.
  destruct cls; [| reflexivity | |];
    (split; [destruct p; vm_compute; reflexivity | vm_compute; reflexivity]).
Qed.

(** ** The CMake CI adapter *)

(** X17: What [build_ci] asks of [dirs] only when it needs it.  Without
    [--install] the install directory is not asked for, and none is
    passed; with it, the one of [dirs] is passed.  A [--boost] directory
    that is not empty is passed as it is and the one of [dirs] is not
    asked for; without [--boost], or with an empty one, the one of
    [dirs] is passed. *)
Theorem cmake_ci_lazy_lookups (dirs : CICMake.Dirs) (args : CICMake.Args) :
  (CICMake.install args = false ->
   (forall r, CICMake.build_ci_call (CICMake.with_install_dir dirs r) args
              = CICMake.build_ci_call dirs args) /\
   (forall call, CICMake.build_ci_call dirs args = Ok call ->
                 CICMake.call_install_dir call = None)) /\
  (CICMake.install args = true ->
   forall call, CICMake.build_ci_call dirs args = Ok call ->
   exists d, CICMake.get_install_dir dirs = Ok d /\
             CICMake.call_install_dir call = Some d) /\
  (forall d, CICMake.boost_dir args = Some d -> d <> "" ->
   (forall r, CICMake.build_ci_call (CICMake.with_boost_dir dirs r) args
              = CICMake.build_ci_call dirs args) /\
   (forall call, CICMake.build_ci_call dirs args = Ok call ->
                 CICMake.call_boost_dir call = d)) /\
  (CICMake.boost_dir args = None \/ CICMake.boost_dir args = Some "" ->
   forall call, CICMake.build_ci_call dirs args = Ok call ->
   CICMake.get_boost_dir dirs = Ok (CICMake.call_boost_dir call)).
Proof.
  destruct dirs as [src cm inst pl cf bd ca], args as [install bdir ts cargs].
  unfold CICMake.build_ci_call, CICMake.with_install_dir,
    CICMake.with_boost_dir; simpl.
  split; [|split; [|split]].
  - intros ->. split; [reflexivity|].
    simpl. intros call.
    destruct src, cm, pl, cf; simpl; try discriminate.
    destruct bdir as [[|ch0 rest0]|]; destruct bd, ca; simpl; try discriminate;
      intros H; injection H as <-; reflexivity.
  - intros ->. intros call.
    destruct inst as [d|]; simpl; [|discriminate].
    destruct src, cm, pl, cf; simpl; try discriminate.
    destruct bdir as [[|ch0 rest0]|]; destruct bd, ca; simpl; try discriminate;
      intros H; injection H as <-; exists d; split; reflexivity.
  - intros d -> Hne. destruct d as [|ch0 rest0]; [congruence|].
    split; [reflexivity|]. intros call.
    destruct install; destruct inst, src, cm, pl, cf, ca; simpl;
      try discriminate; intros H; injection H as <-; reflexivity.
  - intros Hb call Hcall.
    assert (Hbd : match bdir with
                  | Some (String a s) => False
                  | _ => True
                  end).
    { destruct Hb as [-> | ->]; exact I. }
    destruct install; destruct inst, src, cm, pl, cf; simpl in Hcall;
      try discriminate Hcall;
      destruct bdir as [[|ch0 rest0]|]; try contradiction;
      destruct bd, ca; simpl in Hcall; try discriminate Hcall;
      injection Hcall as <-; reflexivity.
Qed.

(** A run with [--boost /opt/boost] and without [--install]. *)
Lemma cmake_ci_lazy_lookups_witness :
  let dirs := {| CICMake.get_src_dir := Ok "src";
                 CICMake.get_cmake_dir := Ok "build";
                 CICMake.get_install_dir := Raise (RuntimeError "no install");
                 CICMake.get_platform := Ok Platform.X64;
                 CICMake.get_configuration := Ok Configuration.DEBUG;
                 CICMake.get_boost_dir := Raise (RuntimeError "no boost");
                 CICMake.get_cmake_args := Ok ["-D"; "A=1"] |} in
  let args := {| CICMake.install := false;
                 CICMake.boost_dir := Some "/opt/boost";
                 CICMake.toolset := None;
                 CICMake.cmake_args := ["-D"; "B=2"] |} in
  exists call,
    CICMake.build_ci_call dirs args = Ok call /\
    CICMake.call_install_dir call = None /\
    CICMake.call_boost_dir call = "/opt/boost".
Proof.
  intros dirs args. eexists. split; [reflexivity|]. split.
  - exact (proj2 (proj1 (cmake_ci_lazy_lookups dirs args) eq_refl)
             _ eq_refl).
  - refine (proj2 (proj1 (proj2 (proj2 (cmake_ci_lazy_lookups dirs args)))
                     "/opt/boost" eq_refl _) _ eq_refl).
    discriminate.
Defined.

(** X18: What [build_ci] passes on.  When the call of [BuildParameters] is
    reached, the source directory, the build directory, the platform and
    the configuration are those of [dirs], the toolset is the one of the
    command line, and the CMake arguments are those of [dirs] followed by
    those of the command line; [build] gets exactly this call.  When an
    argument cannot be had, its error is the outcome and [build] is not
    called. *)
Theorem cmake_ci_arguments (build_params : CICMake.Call -> result unit)
    (dirs : CICMake.Dirs) (args : CICMake.Args) :
  (forall call, CICMake.build_ci_call dirs args = Ok call ->
   CICMake.get_src_dir dirs = Ok (CICMake.call_src_dir call) /\
   CICMake.get_cmake_dir dirs = Ok (CICMake.call_build_dir call) /\
   CICMake.get_platform dirs = Ok (CICMake.call_platform call) /\
   CICMake.get_configuration dirs = Ok (CICMake.call_configuration call) /\
   CICMake.call_toolset call = CICMake.toolset args /\
   (exists l, CICMake.get_cmake_args dirs = Ok l /\
              CICMake.call_cmake_args call = l ++ CICMake.cmake_args args) /\
   CICMake.build_ci build_params dirs args = build_params call) /\
  (forall e, CICMake.build_ci_call dirs args = Raise e ->
   CICMake.build_ci build_params dirs args = Raise e).
Proof.
  unfold CICMake.build_ci. split.
  - intros call Hcall. rewrite Hcall. simpl.
    destruct dirs as [src cm inst pl cf bd ca],
      args as [install bdir ts cargs].
    unfold CICMake.build_ci_call in Hcall. simpl in *.
    destruct install; destruct inst, src, cm, pl, cf; simpl in Hcall;
      try discriminate Hcall;
      destruct bdir as [[|ch0 rest0]|]; destruct bd, ca; simpl in Hcall;
      try discriminate Hcall;
      injection Hcall as <-; simpl; repeat split; eauto.
  - intros e ->. reflexivity.
Qed.

(** A run that reaches [build]. *)
Lemma cmake_ci_arguments_witness :
  let dirs := {| CICMake.get_src_dir := Ok "src";
                 CICMake.get_cmake_dir := Ok "build";
                 CICMake.get_install_dir := Ok "install";
                 CICMake.get_platform := Ok Platform.X64;
                 CICMake.get_configuration := Ok Configuration.DEBUG;
                 CICMake.get_boost_dir := Ok "boost";
                 CICMake.get_cmake_args := Ok ["-D"; "A=1"] |} in
  let args := {| CICMake.install := true;
                 CICMake.boost_dir := None;
                 CICMake.toolset := Some ToolchainType.CLANG;
                 CICMake.cmake_args := ["-D"; "B=2"] |} in
  exists call,
    CICMake.build_ci_call dirs args = Ok call /\
    exists l, CICMake.get_cmake_args dirs = Ok l /\
              CICMake.call_cmake_args call = l ++ ["-D"; "B=2"].
Proof.
  intros dirs args. eexists. split; [reflexivity|].
  exact (proj1 (proj2 (proj2 (proj2 (proj2 (proj2
           (proj1 (cmake_ci_arguments (fun _ => Ok tt) dirs args)
              _ eq_refl))))))).
Defined.

(** ** Further properties of the AppVeyor adapter *)

Lemma platform_of_value_str (p : AppVeyor.Platform.t) :
  AppVeyor.Platform.of_value (AppVeyor.Platform.str p) = Some p.
Proof. destruct p; reflexivity. Qed.

Lemma image_of_value_None (s : string) :
  AppVeyor.Image.of_value s = None -> forall i, AppVeyor.Image.value i <> s.
Proof.
  intros Hnone i <-. rewrite image_of_value_value in Hnone. discriminate.
Qed.

Lemma platform_of_value_None (s : string) :
  AppVeyor.Platform.of_value s = None ->
  forall p, AppVeyor.Platform.str p <> s.
Proof.
  intros Hnone p <-. rewrite platform_of_value_str in Hnone. discriminate.
Qed.

(** What parsing does with the value of a member, and with a string
    that is the value of none. *)
Lemma appveyor_parse_round_trip_aux :
  (forall i, AppVeyor._parse_image (AppVeyor.Image.value i) = Ok i) /\
  (forall p, AppVeyor._parse_platform (AppVeyor.Platform.str p) = Ok p) /\
  (forall s, (forall i, AppVeyor.Image.value i <> s) ->
     AppVeyor._parse_image s
     = Raise (ValueError ("unsupported AppVeyor image: " +:+ s))) /\
  (forall s, (forall p, AppVeyor.Platform.str p <> s) ->
     AppVeyor._parse_platform s
     = Raise (ValueError ("unsupported AppVeyor platform: " +:+ s))).
Proof.
  unfold AppVeyor._parse_image, AppVeyor._parse_platform.
  split; [|split; [|split]].
  - intros i. rewrite image_of_value_value. reflexivity.
  - intros p. rewrite platform_of_value_str. reflexivity.
  - intros s Hno.
    destruct (AppVeyor.Image.of_value s) as [i|] eqn:Hi; [|reflexivity].
    apply image_of_value_Some in Hi. exfalso. apply (Hno i). auto.
  - intros s Hno.
    destruct (AppVeyor.Platform.of_value s) as [p|] eqn:Hp; [|reflexivity].
    apply platform_of_value_Some in Hp. exfalso. apply (Hno p). auto.
Qed.

(** X19: Parsing an image or a platform undoes [str], and [str] undoes
    parsing: the strings that parse are exactly the values of the
    members, every other string is refused with a [ValueError] that
    quotes it, and no two images share a generator. *)
Theorem appveyor_parse_round_trip :
  (forall i, AppVeyor._parse_image (AppVeyor.Image.value i) = Ok i) /\
  (forall s i, AppVeyor._parse_image s = Ok i -> AppVeyor.Image.value i = s) /\
  (forall s, (forall i, AppVeyor.Image.value i <> s) ->
     AppVeyor._parse_image s
     = Raise (ValueError ("unsupported AppVeyor image: " +:+ s))) /\
  (forall p, AppVeyor._parse_platform (AppVeyor.Platform.str p) = Ok p) /\
  (forall s p, AppVeyor._parse_platform s = Ok p ->
     AppVeyor.Platform.str p = s) /\
  (forall s, (forall p, AppVeyor.Platform.str p <> s) ->
     AppVeyor._parse_platform s
     = Raise (ValueError ("unsupported AppVeyor platform: " +:+ s))) /\
  (forall i j,
     AppVeyor.Generator.str (AppVeyor.Generator.from_image i)
     = AppVeyor.Generator.str (AppVeyor.Generator.from_image j) -> i = j).
Proof.
  unfold AppVeyor._parse_image, AppVeyor._parse_platform.
  split; [|split; [|split; [|split; [|split; [|split]]]]].
  - intros i. rewrite image_of_value_value. reflexivity.
  - intros s i.
    destruct (AppVeyor.Image.of_value s) as [i'|] eqn:Hi; [|discriminate].
    intros H. injection H as ->. symmetry.
    apply image_of_value_Some. exact Hi.
  - intros s Hno.
    destruct (AppVeyor.Image.of_value s) as [i|] eqn:Hi; [|reflexivity].
    apply image_of_value_Some in Hi. exfalso. apply (Hno i). auto.
  - intros p. rewrite platform_of_value_str. reflexivity.
  - intros s p.
    destruct (AppVeyor.Platform.of_value s) as [p'|] eqn:Hp; [|discriminate].
    intros H. injection H as ->. symmetry.
    apply platform_of_value_Some. exact Hp.
  - intros s Hno.
    destruct (AppVeyor.Platform.of_value s) as [p|] eqn:Hp; [|reflexivity].
    apply platform_of_value_Some in Hp. exfalso. apply (Hno p). auto.
  - intros i j. destruct i, j; simpl; intros H;
      first [reflexivity | discriminate H].
Qed.

(** The platform of a 32-bit build is written [Win32]: [x86] is
    refused. *)
Lemma appveyor_parse_round_trip_witness :
  AppVeyor._parse_platform "x86"
  = Raise (ValueError "unsupported AppVeyor platform: x86") /\
  AppVeyor._parse_platform "Win32" = Ok AppVeyor.Platform.x86.
Proof.
  split.
  - apply (proj1 (proj2 (proj2 (proj2 (proj2 (proj2
             appveyor_parse_round_trip)))))).
    intros p; destruct p; discriminate.
  - exact (proj1 (proj2 (proj2 (proj2 appveyor_parse_round_trip)))
             AppVeyor.Platform.x86).
Defined.

(** X20: [build_appveyor] gets as far as [build] exactly when the five
    variables are set, the worker image is one of the four Visual Studio
    images and the platform is [Win32] or [x64]. *)
Theorem appveyor_reaches_build_iff (environ : gmap string string)
    (args : AppVeyor.Args) :
  (exists argv, AppVeyor.appveyor_argv environ args = Ok argv) <->
  (forall name, name ∈ AppVeyor.required -> is_Some (environ !! name)) /\
  (exists image,
     environ !! "APPVEYOR_BUILD_WORKER_IMAGE"
     = Some (AppVeyor.Image.value image)) /\
  (exists platform,
     environ !! "PLATFORM" = Some (AppVeyor.Platform.str platform)).
Proof.
  split.
  - intros [argv Hargv].
    apply appveyor_argv_Ok in Hargv
      as (sentinel & configuration & src & image & platform
          & H1 & H2 & H3 & H4 & H5 & _).
    split; [|split; eauto].
    intros name Hname. unfold AppVeyor.required in Hname.
    repeat (apply elem_of_cons in Hname as [-> | Hname]; [eauto|]).
    inversion Hname.
  - intros (Hreq & [image Himage] & [platform Hplatform]).
    assert (Hs : is_Some (environ !! "APPVEYOR")).
    { apply Hreq. unfold AppVeyor.required. repeat constructor. }
    assert (Hc : is_Some (environ !! "CONFIGURATION")).
    { apply Hreq. unfold AppVeyor.required. repeat constructor. }
    assert (Hf : is_Some (environ !! "APPVEYOR_BUILD_FOLDER")).
    { apply Hreq. unfold AppVeyor.required. repeat constructor. }
    destruct Hs as [sentinel Hs], Hc as [configuration Hc], Hf as [src Hf].
    unfold AppVeyor.appveyor_argv, AppVeyor._check_appveyor,
      AppVeyor._get_configuration, AppVeyor._get_src_dir,
      AppVeyor._get_generator, AppVeyor._get_platform, AppVeyor._env,
      AppVeyor._parse_image, AppVeyor._parse_platform.
    rewrite Hs, Hc, Hf, Himage, Hplatform. simpl.
    rewrite image_of_value_value. simpl.
    rewrite platform_of_value_str. simpl. eauto.
Qed.

(** X21: The command line that [build] gets: the build directory and the
    configuration, the install directory when there is one, then behind
    [--] the source directory, the generator of the worker image, the
    platform as the environment has it, and the arguments of the user
    last.  The configuration is passed on as it is. *)
Theorem appveyor_command_line (environ : gmap string string)
    (build : list string -> result unit) (args : AppVeyor.Args)
    (sentinel configuration src : string) (image : AppVeyor.Image.t)
    (platform : AppVeyor.Platform.t) :
  environ !! "APPVEYOR" = Some sentinel ->
  environ !! "CONFIGURATION" = Some configuration ->
  environ !! "APPVEYOR_BUILD_FOLDER" = Some src ->
  environ !! "APPVEYOR_BUILD_WORKER_IMAGE"
    = Some (AppVeyor.Image.value image) ->
  environ !! "PLATFORM" = Some (AppVeyor.Platform.str platform) ->
  AppVeyor.build_appveyor environ build args
  = build (["--build"; "C:\Projects\build";
            "--configuration"; configuration]
           ++ match AppVeyor.install_dir args with
              | Some d => ["--install"; d]
              | None => []
              end
           ++ ["--"; src;
               "-G"; AppVeyor.Generator.str
                       (AppVeyor.Generator.from_image image);
               "-A"; AppVeyor.Platform.str platform]
           ++ AppVeyor.cmake_args args).
Proof.
  intros Hs Hc Hf Himage Hplatform.
  unfold AppVeyor.build_appveyor, AppVeyor.appveyor_argv,
    AppVeyor._check_appveyor,
    AppVeyor._get_configuration, AppVeyor._get_src_dir,
    AppVeyor._get_generator, AppVeyor._get_platform, AppVeyor._env,
    AppVeyor._parse_image, AppVeyor._parse_platform.
  rewrite Hs, Hc, Hf, Himage, Hplatform. simpl.
  rewrite image_of_value_value. simpl.
  rewrite platform_of_value_str. simpl.
  destruct (AppVeyor.install_dir args); reflexivity.
Qed.

(** A 32-bit release build on the Visual Studio 2019 image, with an
    install directory. *)
Lemma appveyor_command_line_witness :
  let environ : gmap string string :=
    <["APPVEYOR" := "True"]>
      (<["CONFIGURATION" := "Release"]>
         (<["APPVEYOR_BUILD_FOLDER" := "C:\projects\app"]>
            (<["APPVEYOR_BUILD_WORKER_IMAGE" := "Visual Studio 2019"]>
               (<["PLATFORM" := "Win32"]> ∅)))) in
  let args := {| AppVeyor.install_dir := Some "C:\install";
                 AppVeyor.cmake_args := ["-D"; "X=1"] |} in
  AppVeyor.build_appveyor environ (fun _ => Ok tt) args = Ok tt.
Proof.
  intros environ args.
  exact (appveyor_command_line environ (fun _ => Ok tt) args "True" "Release"
           "C:\projects\app" AppVeyor.Image.VS_2019 AppVeyor.Platform.x86
           eq_refl eq_refl eq_refl eq_refl eq_refl).
Defined.

(** X22: Which error comes first.  Off AppVeyor the adapter says so, whatever
    else is set.  On it, the first of the configuration, the build folder
    and the worker image that is not set is reported as undefined; a
    worker image that is set and unknown is refused; then a platform that
    is not set is reported, and one that is unknown refused.  Each of
    these errors is the outcome: [build] is not called. *)
Theorem appveyor_first_error (environ : gmap string string)
    (build : list string -> result unit) (args : AppVeyor.Args) :
  let run := AppVeyor.build_appveyor environ build args in
  let undefined (name : string) :=
    Raise (RuntimeError ("undefined environment variable: " +:+ name)) in
  (environ !! "APPVEYOR" = None ->
   run = Raise (RuntimeError "not running on AppVeyor")) /\
  (is_Some (environ !! "APPVEYOR") ->
   (environ !! "CONFIGURATION" = None -> run = undefined "CONFIGURATION") /\
   (is_Some (environ !! "CONFIGURATION") ->
    (environ !! "APPVEYOR_BUILD_FOLDER" = None ->
     run = undefined "APPVEYOR_BUILD_FOLDER") /\
    (is_Some (environ !! "APPVEYOR_BUILD_FOLDER") ->
     (environ !! "APPVEYOR_BUILD_WORKER_IMAGE" = None ->
      run = undefined "APPVEYOR_BUILD_WORKER_IMAGE") /\
     (forall s, environ !! "APPVEYOR_BUILD_WORKER_IMAGE" = Some s ->
      (forall i, AppVeyor.Image.value i <> s) ->
      run = Raise (ValueError ("unsupported AppVeyor image: " +:+ s))) /\
     (forall i, environ !! "APPVEYOR_BUILD_WORKER_IMAGE"
                = Some (AppVeyor.Image.value i) ->
      (environ !! "PLATFORM" = None -> run = undefined "PLATFORM") /\
      (forall s, environ !! "PLATFORM" = Some s ->
       (forall p, AppVeyor.Platform.str p <> s) ->
       run = Raise (ValueError ("unsupported AppVeyor platform: " +:+ s))))))).
Proof.
  intros run undefined. subst run undefined.
  unfold AppVeyor.build_appveyor, AppVeyor.appveyor_argv,
    AppVeyor._check_appveyor,
    AppVeyor._get_configuration, AppVeyor._get_src_dir,
    AppVeyor._get_generator, AppVeyor._get_platform, AppVeyor._env.
  split; [intros ->; reflexivity|].
  intros [sentinel ->]. simpl.
  split; [intros ->; reflexivity|].
  intros [configuration ->]. simpl.
  split; [intros ->; reflexivity|].
  intros [src ->]. simpl.
  split; [intros ->; reflexivity|].
  split.
  - intros s -> Hno. simpl.
    rewrite (proj1 (proj2 (proj2 appveyor_parse_round_trip_aux)) s Hno).
    reflexivity.
  - intros i ->. simpl.
    rewrite (proj1 appveyor_parse_round_trip_aux i). simpl.
    split; [intros ->; reflexivity|].
    intros s -> Hno. simpl.
    rewrite (proj2 (proj2 (proj2 appveyor_parse_round_trip_aux)) s Hno).
    reflexivity.
Qed.

(** On a worker whose platform is [x86], with everything else in
    order. *)
Lemma appveyor_first_error_witness :
  let environ : gmap string string :=
    <["APPVEYOR" := "True"]>
      (<["CONFIGURATION" := "Release"]>
         (<["APPVEYOR_BUILD_FOLDER" := "C:\projects\app"]>
            (<["APPVEYOR_BUILD_WORKER_IMAGE" := "Visual Studio 2019"]>
               (<["PLATFORM" := "x86"]> ∅)))) in
  let args := {| AppVeyor.install_dir := None; AppVeyor.cmake_args := [] |} in
  AppVeyor.build_appveyor environ (fun _ => Ok tt) args
  = Raise (ValueError "unsupported AppVeyor platform: x86").
Proof.
  intros environ args.
  destruct (appveyor_first_error environ (fun _ => Ok tt) args) as [_ H].
  destruct (H (ex_intro _ "True" eq_refl)) as [_ H1].
  destruct (H1 (ex_intro _ "Release" eq_refl)) as [_ H2].
  destruct (H2 (ex_intro _ "C:\projects\app" eq_refl)) as (_ & _ & H3).
  destruct (H3 AppVeyor.Image.VS_2019 eq_refl) as [_ H4].
  apply (H4 "x86" eq_refl).
  intros p; destruct p; discriminate.
Defined.

(** ** The Travis adapter *)

Section TravisRun.
Variable h : Host.
Variable environ : gmap string string.
Variable BoostVersion : Type.
Variable from_string : string -> result BoostVersion.
Variable version_str : BoostVersion -> string.
Variable dir_path : BoostVersion -> string -> string.
Variable build_main : list string -> result unit.
Variable rename : string -> string -> result unit.
Variable args : Travis.Args.

(** The run of the adapter, from a world in which it has done nothing
    yet, once the environment has told the version and the home
    directory: the download, the renaming, and then the part that reads
    the configuration and the platform. *)
Lemma travis_run_unfold (sentinel s home : string) (version : BoostVersion) :
  environ !! "TRAVIS" = Some sentinel ->
  environ !! "travis_boost_version" = Some s ->
  from_string s = Ok version ->
  environ !! "HOME" = Some home ->
  let download := ["download"; "--unpack"; home; "--"; version_str version] in
  let boost_dir := os_path_join h home "boost" in
  let moved := Travis.Rename (dir_path version home) boost_dir in
  Travis.build_travis h environ BoostVersion from_string version_str
    dir_path build_main rename args []
  = match build_main download with
    | Raise e => ([Travis.BuildMain download], Raise e)
    | Ok _ =>
        match rename (dir_path version home) boost_dir with
        | Raise e => ([Travis.BuildMain download; moved], Raise e)
        | Ok _ =>
            match environ !! "configuration", environ !! "platform" with
            | None, _ =>
                ([Travis.BuildMain download; moved],
                 Raise (RuntimeError
                          "undefined environment variable: configuration"))
            | Some _, None =>
                ([Travis.BuildMain download; moved],
                 Raise (RuntimeError
                          "undefined environment variable: platform"))
            | Some configuration, Some platform =>
                let build :=
                  Travis.build_argv configuration platform boost_dir args in
                ([Travis.BuildMain download; moved; Travis.BuildMain build],
                 build_main build)
            end
        end
    end.
Proof.
  intros Ht Hv Hs Hh download boost_dir moved.
  subst download boost_dir moved.
  unfold Travis.build_travis, Travis.pure_step, Travis.perform,
    Travis._check_travis, Travis._get_boost_version, Travis._get_build_dir,
    Travis._get_boost_dir, Travis._get_configuration, Travis._get_platform,
    Travis._get_build_dir, Travis._env.
  unfold mbind, Travis.traced_bind.
  rewrite Ht, Hv, Hs, Hh. simpl.
  destruct (build_main _) as [[]|e]; [|reflexivity].
  destruct (rename _ _) as [[]|e]; [|reflexivity].
  destruct (environ !! "configuration") as [configuration|]; [|reflexivity].
  destruct (environ !! "platform") as [platform|]; reflexivity.
Qed.
End TravisRun.

(** X23: Before it downloads anything, [build_travis] checks that it runs on
    Travis, reads the Boost version and parses it, and reads the home
    directory: when one of these fails, it has run nothing and the error
    is the one of that step. *)
Theorem travis_checks_before_download (h : Host)
    (environ : gmap string string) (BoostVersion : Type)
    (from_string : string -> result BoostVersion)
    (version_str : BoostVersion -> string)
    (dir_path : BoostVersion -> string -> string)
    (build_main : list string -> result unit)
    (rename : string -> string -> result unit) (args : Travis.Args) :
  let run := Travis.build_travis h environ BoostVersion from_string
               version_str dir_path build_main rename args [] in
  let undefined (name : string) :=
    Raise (RuntimeError ("undefined environment variable: " +:+ name)) in
  (environ !! "TRAVIS" = None ->
   run = ([], Raise (RuntimeError "not running on Travis"))) /\
  (is_Some (environ !! "TRAVIS") ->
   (environ !! "travis_boost_version" = None ->
    run = ([], undefined "travis_boost_version")) /\
   (forall s, environ !! "travis_boost_version" = Some s ->
    (forall e, from_string s = Raise e -> run = ([], Raise e)) /\
    (forall version, from_string s = Ok version ->
     environ !! "HOME" = None -> run = ([], undefined "HOME")))).
Proof.
  intros run undefined. subst run undefined.
  unfold Travis.build_travis, Travis.pure_step, Travis.perform,
    Travis._check_travis, Travis._get_boost_version, Travis._get_build_dir,
    Travis._env.
  unfold mbind, Travis.traced_bind.
  split; [intros ->; reflexivity|].
  intros [sentinel ->]. simpl.
  split; [intros ->; reflexivity|].
  intros s ->. simpl. split.
  - intros e ->. reflexivity.
  - intros version -> ->. reflexivity.
Qed.

(** Off Travis nothing is run. *)
Lemma travis_checks_before_download_witness :
  Travis.build_travis linux_host ∅ string (fun s => Ok s) (fun v => v)
    (fun v d => d +:+ "/boost_" +:+ v) (fun _ => Ok tt) (fun _ _ => Ok tt)
    {| Travis.link := None; Travis.runtime_link := None;
       Travis.b2_args := [] |} []
  = ([], Raise (RuntimeError "not running on Travis")).
Proof.
  exact (proj1 (travis_checks_before_download linux_host ∅ string
                  (fun s => Ok s) (fun v => v)
                  (fun v d => d +:+ "/boost_" +:+ v) (fun _ => Ok tt)
                  (fun _ _ => Ok tt)
                  {| Travis.link := None; Travis.runtime_link := None;
                     Travis.b2_args := [] |}) eq_refl).
Defined.

(** X24: The configuration and the platform are read only after Boost has
    been downloaded and moved into place: when one of the two variables
    is not set, with everything before in order, [build_travis] fails on
    it having run the download and the renaming, and not the build. *)
Theorem travis_validates_after_download (h : Host)
    (environ : gmap string string) (BoostVersion : Type)
    (from_string : string -> result BoostVersion)
    (version_str : BoostVersion -> string)
    (dir_path : BoostVersion -> string -> string)
    (build_main : list string -> result unit)
    (rename : string -> string -> result unit) (args : Travis.Args)
    (sentinel s home : string) (version : BoostVersion) :
  let run := Travis.build_travis h environ BoostVersion from_string
               version_str dir_path build_main rename args [] in
  let download := ["download"; "--unpack"; home; "--"; version_str version] in
  let boost_dir := os_path_join h home "boost" in
  let done := [Travis.BuildMain download;
               Travis.Rename (dir_path version home) boost_dir] in
  environ !! "TRAVIS" = Some sentinel ->
  environ !! "travis_boost_version" = Some s ->
  from_string s = Ok version ->
  environ !! "HOME" = Some home ->
  build_main download = Ok tt ->
  rename (dir_path version home) boost_dir = Ok tt ->
  (environ !! "configuration" = None ->
   run = (done, Raise (RuntimeError
                         "undefined environment variable: configuration"))) /\
  (is_Some (environ !! "configuration") -> environ !! "platform" = None ->
   run = (done, Raise (RuntimeError
                         "undefined environment variable: platform"))).
Proof.
  intros run download boost_dir done Ht Hv Hs Hh Hd Hr.
  subst run.
  rewrite (travis_run_unfold h environ BoostVersion from_string version_str
             dir_path build_main rename args sentinel s home version
             Ht Hv Hs Hh).
  cbv zeta. fold download. rewrite Hd. fold boost_dir. rewrite Hr.
  split.
  - intros ->. reflexivity.
  - intros [configuration ->] ->. reflexivity.
Qed.

(** A job that sets no platform has downloaded and moved Boost before it
    fails. *)
Lemma travis_validates_after_download_witness :
  let environ : gmap string string :=
    <["TRAVIS" := "true"]>
      (<["travis_boost_version" := "1.71.0"]>
         (<["HOME" := "/home/travis"]>
            (<["configuration" := "Debug"]> ∅))) in
  Travis.build_travis linux_host environ string (fun s => Ok s) (fun v => v)
    (fun v d => d +:+ "/boost_" +:+ v) (fun _ => Ok tt) (fun _ _ => Ok tt)
    {| Travis.link := None; Travis.runtime_link := None;
       Travis.b2_args := [] |} []
  = ([Travis.BuildMain ["download"; "--unpack"; "/home/travis"; "--"; "1.71.0"];
      Travis.Rename "/home/travis/boost_1.71.0" "/home/travis/boost"],
     Raise (RuntimeError "undefined environment variable: platform")).
Proof.
  intros environ.
  refine (proj2 (travis_validates_after_download linux_host environ string
                   (fun s => Ok s) (fun v => v)
                   (fun v d => d +:+ "/boost_" +:+ v) (fun _ => Ok tt)
                   (fun _ _ => Ok tt)
                   {| Travis.link := None; Travis.runtime_link := None;
                      Travis.b2_args := [] |}
                   "true" "1.71.0" "/home/travis" "1.71.0"
                   eq_refl eq_refl eq_refl eq_refl eq_refl eq_refl) _ eq_refl).
  exists "Debug". reflexivity.
Defined.

(** X25: With the five variables set and a version that parses, [build_travis]
    runs the download, then the renaming, then the build, and stops at
    the first of them that fails, with its error; when it gets to the
    build, its outcome is the one of the build.  The build is told the
    configuration and the platform of the environment, then the library
    linkages and the runtime linkage of the command line when they are
    given, then behind [--] the Boost directory, which is [boost] in the
    home directory, and the arguments of the user last. *)
Theorem travis_runs_in_order (h : Host)
    (environ : gmap string string) (BoostVersion : Type)
    (from_string : string -> result BoostVersion)
    (version_str : BoostVersion -> string)
    (dir_path : BoostVersion -> string -> string)
    (build_main : list string -> result unit)
    (rename : string -> string -> result unit) (args : Travis.Args)
    (sentinel s home configuration platform : string)
    (version : BoostVersion) :
  let run := Travis.build_travis h environ BoostVersion from_string
               version_str dir_path build_main rename args [] in
  let download := ["download"; "--unpack"; home; "--"; version_str version] in
  let boost_dir := os_path_join h home "boost" in
  let moved := Travis.Rename (dir_path version home) boost_dir in
  let build :=
    ["build"; "--configuration"; configuration; "--platform"; platform]
    ++ match Travis.link args with
       | Some l => "--link" :: l
       | None => []
       end
    ++ match Travis.runtime_link args with
       | Some r => ["--runtime-link"; r]
       | None => []
       end
    ++ ["--"; boost_dir] ++ Travis.b2_args args in
  environ !! "TRAVIS" = Some sentinel ->
  environ !! "travis_boost_version" = Some s ->
  from_string s = Ok version ->
  environ !! "HOME" = Some home ->
  environ !! "configuration" = Some configuration ->
  environ !! "platform" = Some platform ->
  (forall e, build_main download = Raise e ->
   run = ([Travis.BuildMain download], Raise e)) /\
  (build_main download = Ok tt ->
   (forall e, rename (dir_path version home) boost_dir = Raise e ->
    run = ([Travis.BuildMain download; moved], Raise e)) /\
   (rename (dir_path version home) boost_dir = Ok tt ->
    run = ([Travis.BuildMain download; moved; Travis.BuildMain build],
           build_main build))).
Proof.
  intros run download boost_dir moved build Ht Hv Hs Hh Hc Hp.
  subst run.
  rewrite (travis_run_unfold h environ BoostVersion from_string version_str
             dir_path build_main rename args sentinel s home version
             Ht Hv Hs Hh).
  cbv zeta. fold download. fold boost_dir. fold moved.
  rewrite Hc, Hp.
  assert (Hbuild : Travis.build_argv configuration platform boost_dir args
                   = build).
  { unfold Travis.build_argv, build.
    destruct (Travis.link args), (Travis.runtime_link args); simpl;
      rewrite <- ?app_assoc; reflexivity. }
  rewrite Hbuild.
  split.
  - intros e ->. reflexivity.
  - intros ->. split.
    + intros e ->. reflexivity.
    + intros ->. reflexivity.
Qed.

(** A job with [--link static] and one argument for b2. *)
Lemma travis_runs_in_order_witness :
  let environ : gmap string string :=
    <["TRAVIS" := "true"]>
      (<["travis_boost_version" := "1.71.0"]>
         (<["HOME" := "/home/travis"]>
            (<["configuration" := "Debug"]>
               (<["platform" := "x64"]> ∅)))) in
  Travis.build_travis linux_host environ string (fun s => Ok s) (fun v => v)
    (fun v d => d +:+ "/boost_" +:+ v) (fun _ => Ok tt) (fun _ _ => Ok tt)
    {| Travis.link := Some ["static"]; Travis.runtime_link := None;
       Travis.b2_args := ["--with-filesystem"] |} []
  = ([Travis.BuildMain ["download"; "--unpack"; "/home/travis"; "--"; "1.71.0"];
      Travis.Rename "/home/travis/boost_1.71.0" "/home/travis/boost";
      Travis.BuildMain ["build"; "--configuration"; "Debug";
                        "--platform"; "x64"; "--link"; "static";
                        "--"; "/home/travis/boost"; "--with-filesystem"]],
     Ok tt).
Proof.
  intros environ.
  exact (proj2 (proj2 (travis_runs_in_order linux_host environ string
                   (fun s => Ok s) (fun v => v)
                   (fun v d => d +:+ "/boost_" +:+ v) (fun _ => Ok tt)
                   (fun _ _ => Ok tt)
                   {| Travis.link := Some ["static"];
                      Travis.runtime_link := None;
                      Travis.b2_args := ["--with-filesystem"] |}
                   "true" "1.71.0" "/home/travis" "Debug" "x64" "1.71.0"
                   eq_refl eq_refl eq_refl eq_refl eq_refl eq_refl)
                 eq_refl) eq_refl).
Defined.

(** ** Further witnesses, and the Boost CI adapter *)

(** On the Windows host, where a [gcc] is found, hint clang-cl builds b2
    with GCC. *)
Lemma bootstrap_args_by_hint_witness :
  which windows_host "gcc" None <> None /\
  BootstrapToolchain.get_bootstrap_bat_args windows_host
    (BootstrapToolchain.detect ToolchainType.CLANG_CL) = ["gcc"].
Proof.
  assert (Hfound : which windows_host "gcc" None <> None) by discriminate.
  split; [exact Hfound|].
  apply (proj2 (proj1 (proj2
           (bootstrap_args_by_hint windows_host ToolchainType.CLANG_CL)))).
  right. split; [right; right; reflexivity | exact Hfound].
Defined.

(** A worker with the five variables set, a known image and a known
    platform gets to the build. *)
Lemma appveyor_reaches_build_iff_witness :
  let environ : gmap string string :=
    <["APPVEYOR" := "True"]>
      (<["CONFIGURATION" := "Release"]>
         (<["APPVEYOR_BUILD_FOLDER" := "C:\projects\app"]>
            (<["APPVEYOR_BUILD_WORKER_IMAGE" := "Visual Studio 2019"]>
               (<["PLATFORM" := "Win32"]> ∅)))) in
  let args := {| AppVeyor.install_dir := None; AppVeyor.cmake_args := [] |} in
  exists image platform,
    environ !! "APPVEYOR_BUILD_WORKER_IMAGE"
    = Some (AppVeyor.Image.value image) /\
    environ !! "PLATFORM" = Some (AppVeyor.Platform.str platform).
Proof.
  intros environ args.
  destruct (proj1 (appveyor_reaches_build_iff environ args)
              (ex_intro _ _ eq_refl))
    as (_ & [image Himage] & [platform Hplatform]).
  exists image, platform. split; assumption.
Defined.

(** X26: The outcome of [build_ci] for Boost is the same whatever is on the
    command line: the linkages, the toolset and the arguments for b2 are
    evaluated for a call that never binds.  An error of a step that
    comes before that call (the version, the two directories, the
    download, the platform and the configuration, in this order) is the
    outcome, and not the [TypeError]. *)
Theorem boost_ci_ignores_command_line (h : Host)
    (download : string -> string -> string -> result unit)
    (build : BuildParameters.t -> result unit)
    (dirs : CIBoost.Dirs) (args : CIBoost.Args) :
  let run := CIBoost.build_ci h download build dirs in
  (forall args', run args' = run args) /\
  (forall e, CIBoost.get_boost_version dirs = Raise e -> run args = Raise e) /\
  (forall version build_dir boost_dir e,
     CIBoost.get_boost_version dirs = Ok version ->
     CIBoost.get_build_dir dirs = Ok build_dir ->
     CIBoost.get_boost_dir dirs = Ok boost_dir ->
     download version build_dir boost_dir = Raise e ->
     run args = Raise e) /\
  (forall version build_dir boost_dir e,
     CIBoost.get_boost_version dirs = Ok version ->
     CIBoost.get_build_dir dirs = Ok build_dir ->
     CIBoost.get_boost_dir dirs = Ok boost_dir ->
     download version build_dir boost_dir = Ok tt ->
     CIBoost.get_platform dirs = Raise e ->
     run args = Raise e).
Proof.
  intros run. subst run. unfold CIBoost.build_ci.
  split; [|split; [|split]].
  - intros args'.
    destruct (CIBoost.get_boost_version dirs) as [version|]; simpl;
      [|reflexivity].
    destruct (CIBoost.get_build_dir dirs) as [build_dir|]; simpl;
      [|reflexivity].
    destruct (CIBoost.get_boost_dir dirs) as [boost_dir|]; simpl;
      [|reflexivity].
    destruct (download version build_dir boost_dir) as [[]|]; simpl;
      [|reflexivity].
    destruct (CIBoost.get_platform dirs) as [platform|]; simpl;
      [|reflexivity].
    destruct (CIBoost.get_configuration dirs) as [configuration|]; simpl;
      [|reflexivity].
    reflexivity.
  - intros e ->. reflexivity.
  - intros version build_dir boost_dir e -> -> -> Hd. simpl.
    rewrite Hd. reflexivity.
  - intros version build_dir boost_dir e -> -> -> Hd ->. simpl.
    rewrite Hd. reflexivity.
Qed.

(** A download that fails is what the adapter reports. *)
Lemma boost_ci_ignores_command_line_witness :
  let dirs := {| CIBoost.get_boost_version := Ok "1.71.0";
                 CIBoost.get_build_dir := Ok "/home/ci";
                 CIBoost.get_boost_dir := Ok "/home/ci/boost";
                 CIBoost.get_platform := Ok Platform.X64;
                 CIBoost.get_configuration := Ok Configuration.DEBUG |} in
  let args := {| CIBoost.link := None; CIBoost.runtime_link := None;
                 CIBoost.toolset := None; CIBoost.b2_args := [] |} in
  CIBoost.build_ci linux_host (fun _ _ _ => Raise (OtherError "no network"))
    (fun _ => Ok tt) dirs args
  = Raise (OtherError "no network").
Proof.
  intros dirs args.
  exact (proj1 (proj2 (proj2
           (boost_ci_ignores_command_line linux_host
              (fun _ _ _ => Raise (OtherError "no network"))
              (fun _ => Ok tt) dirs args)))
           "1.71.0" "/home/ci" "/home/ci/boost" (OtherError "no network")
           eq_refl eq_refl eq_refl eq_refl).
Defined.
